(** * Marketing CRM API: referential checks, cascade delete and validation

    A shallow embedding of [main.py] and [schemas.py].  Request handlers
    are functions in a state-and-exception monad over the document store;
    an exception raised after a store call keeps the changes made so far,
    exactly as a Python [raise] after a driver call does. *)

From Stdlib Require Import ZArith NArith QArith Ascii String List Lia.
From Stdlib Require Import Sorting.Sorted Sorting.Permutation OrderedTypeEx.
From stdpp Require Import base option list gmap strings fin_maps.

Open Scope string_scope.
Open Scope Z_scope.

Abbreviation byte := Byte.byte.

#[global] Instance byte_eq_dec : EqDecision byte := Byte.byte_eq_dec.
#[global] Instance Q_eq_dec : EqDecision Q.
Proof. solve_decision. Defined.

(** ** Object identifiers ([bson.ObjectId])

    [ObjectId(s)] accepts a [str] of length 24 on which [bytes.fromhex]
    succeeds and keeps the decoded bytes; [str(oid)] is the lower-case
    hexadecimal text of those bytes.  A string is the sequence of its
    bytes; one with a character outside ASCII is refused either way. *)

Module Hex.

(** Value of a hexadecimal digit; both letter cases are digits. *)
Definition digit_value (c : ascii) : option N :=
  let n := N_of_ascii c in
  if ((48 <=? n) && (n <=? 57))%N then Some (n - 48)%N
  else if ((97 <=? n) && (n <=? 102))%N then Some (n - 87)%N
  else if ((65 <=? n) && (n <=? 70))%N then Some (n - 55)%N
  else None.

(** ASCII white space: tab, line feed, vertical tab, form feed,
    carriage return and space. *)
Definition isspace (c : ascii) : bool :=
  let n := N_of_ascii c in
  (((9 <=? n) && (n <=? 13)) || (n =? 32))%N.

Definition byte_of_nibbles (top bot : N) : byte :=
  byte_of_ascii (ascii_of_N (16 * top + bot)).

(** [bytes.fromhex]: white space is skipped in front of a pair of
    digits, never inside one. *)
Fixpoint fromhex (s : string) : option (list byte) :=
  match s with
  | EmptyString => Some []
  | String c s' =>
      if isspace c then fromhex s'
      else match digit_value c, s' with
           | Some top, String d s'' =>
               match digit_value d with
               | Some bot => cons (byte_of_nibbles top bot) <$> fromhex s''
               | None => None
               end
           | _, _ => None
           end
  end.

Definition digit_char (d : N) : ascii :=
  if (d <? 10)%N then ascii_of_N (48 + d) else ascii_of_N (87 + d).

(** [binascii.hexlify]: two lower-case digits per byte. *)
Fixpoint hexlify (bs : list byte) : string :=
  match bs with
  | [] => EmptyString
  | b :: bs' =>
      let n := Byte.to_N b in
      String (digit_char (n / 16)) (String (digit_char (n mod 16)) (hexlify bs'))
  end.

End Hex.

Record ObjectId := { binary : list byte }.

#[global] Instance ObjectId_eq_dec : EqDecision ObjectId.
Proof. solve_decision. Defined.

(** [ObjectId(id_str)]; [None] stands for the [InvalidId] exception. *)
Definition ObjectId_of_str (id_str : string) : option ObjectId :=
  if (String.length id_str =? 24)%nat
  then Build_ObjectId <$> Hex.fromhex id_str
  else None.

(** [str(oid)]. *)
Definition str (oid : ObjectId) : string := Hex.hexlify (binary oid).

(** ** Stored values and documents *)

(** The values a field of a stored document or of a response body holds.
    A Python [float] is represented by the rational number it denotes. *)
Inductive Value :=
| VNull
| VBool (b : bool)
| VInt (z : Z)
| VFloat (q : Q)
| VStr (s : string).

#[global] Instance Value_eq_dec : EqDecision Value.
Proof. solve_decision. Defined.

(** A Python [dict] with string keys and scalar values. *)
Abbreviation Dict := (gmap string Value).

(** A stored document: the store gives every document an [_id]; it is
    kept apart from the other fields. *)
Record Document := { _id : ObjectId; fields : Dict }.

(** One condition of a query document: [{"_id": oid}] or [{k: s}]. *)
Inductive Cond :=
| IdEq (oid : ObjectId)
| FieldEq (k : string) (s : string).

(** A query document; [[]] is [{}] and matches everything. *)
Definition Filter := list Cond.

Definition cond_matches (c : Cond) (d : Document) : bool :=
  match c with
  | IdEq oid => bool_decide (_id d = oid)
  | FieldEq k s => bool_decide (fields d !! k = Some (VStr s))
  end.

Definition matches (flt : Filter) (d : Document) : bool :=
  forallb (fun c => cond_matches c d) flt.

(** ** The database handle [db] *)

Inductive DbOp :=
| OpFindOne (name : string) (flt : Filter)
| OpFind (name : string) (flt : Filter)
| OpInsertOne (name : string)
| OpDeleteOne (name : string) (flt : Filter)
| OpDeleteMany (name : string) (flt : Filter).

(** [collections] maps a collection name to its documents in insertion
    order, [next_oid] is the supply of fresh identifiers and [oplog]
    records every call made to the driver, oldest first. *)
Record Database := {
  collections : gmap string (list Document);
  next_oid : N;
  oplog : list DbOp
}.

(** [db[name]]: a collection never written to is empty. *)
Definition coll (db : Database) (name : string) : list Document :=
  default [] (collections db !! name).

Definition set_coll (name : string) (docs : list Document) (db : Database) : Database :=
  {| collections := <[name := docs]> (collections db);
     next_oid := next_oid db;
     oplog := oplog db |}.

Definition log (op : DbOp) (db : Database) : Database :=
  {| collections := collections db;
     next_oid := next_oid db;
     oplog := oplog db ++ [op] |}.

(** The next identifier of the supply is used up. *)
Definition take_oid (db : Database) : Database :=
  {| collections := collections db;
     next_oid := N.succ (next_oid db);
     oplog := oplog db |}.

(** The twelve bytes of the [n]-th generated identifier, big-endian. *)
Definition oid_bytes (n : N) : list byte :=
  List.map (fun i => byte_of_ascii (ascii_of_N ((n / 256 ^ i) mod 256)))
           [11; 10; 9; 8; 7; 6; 5; 4; 3; 2; 1; 0]%N.

Definition fresh_oid (db : Database) : ObjectId :=
  {| binary := oid_bytes (next_oid db) |}.

(** ** Handlers: state and [HTTPException] *)

(** What a request can fail with: an [HTTPException] raised by a handler,
    or the framework's [RequestValidationError] for a body the schema
    rejects, which lists the offending fields. *)
Inductive Exception :=
| HTTPException (status_code : Z) (detail : string)
| RequestValidationError (errors : list string).

(** The status of the response the framework builds from an exception. *)
Definition status_code (e : Exception) : Z :=
  match e with
  | HTTPException code _ => code
  | RequestValidationError _ => 422
  end.

Inductive Outcome (A : Type) :=
| Return (a : A)
| Raise (e : Exception).
Arguments Return {A} a.
Arguments Raise {A} e.

Definition Handler (A : Type) : Type := Database -> Outcome A * Database.

#[global] Instance Handler_ret : MRet Handler :=
  fun A a db => (Return a, db).

(** An exception stops the handler; the database keeps what was done. *)
#[global] Instance Handler_bind : MBind Handler :=
  fun A B k m db =>
    match m db with
    | (Return a, db') => k a db'
    | (Raise e, db') => (Raise e, db')
    end.

Definition raise {A} (e : Exception) : Handler A :=
  fun db => (Raise e, db).

(** ** Driver calls *)

Fixpoint remove_first {A} (p : A -> bool) (l : list A) : list A :=
  match l with
  | [] => []
  | x :: l' => if p x then l' else x :: remove_first p l'
  end.

(** [db[name].find_one(flt)] *)
Definition find_one (name : string) (flt : Filter) : Handler (option Document) :=
  fun db => (Return (List.find (matches flt) (coll db name)),
             log (OpFindOne name flt) db).

(** [list(db[name].find(flt))] *)
Definition find (name : string) (flt : Filter) : Handler (list Document) :=
  fun db => (Return (List.filter (matches flt) (coll db name)),
             log (OpFind name flt) db).

(** [db[name].insert_one(doc).inserted_id] for a [doc] without [_id] *)
Definition insert_one (name : string) (doc : Dict) : Handler ObjectId :=
  fun db =>
    let oid := fresh_oid db in
    (Return oid,
     log (OpInsertOne name)
       (take_oid (set_coll name (coll db name ++ [{| _id := oid; fields := doc |}]) db))).

(** [db[name].delete_one(flt).deleted_count] *)
Definition delete_one (name : string) (flt : Filter) : Handler Z :=
  fun db =>
    let docs := coll db name in
    (Return (if existsb (matches flt) docs then 1 else 0),
     log (OpDeleteOne name flt) (set_coll name (remove_first (matches flt) docs) db)).

(** [db[name].delete_many(flt).deleted_count] *)
Definition delete_many (name : string) (flt : Filter) : Handler Z :=
  fun db =>
    let docs := coll db name in
    (Return (Z.of_nat (length (List.filter (matches flt) docs))),
     log (OpDeleteMany name flt)
       (set_coll name (List.filter (fun d => negb (matches flt d)) docs) db)).

(** ** Cursor sort

    [cursor.sort(key, direction)] orders documents by the value of [key]
    in the store's comparison order: null (and a missing field) before
    numbers, numbers before strings, strings before booleans; numbers by
    value, strings byte by byte.  The store leaves the order of documents
    with equal keys open; here they keep their relative order. *)

Definition bson_rank (v : Value) : Z :=
  match v with
  | VNull => 1
  | VInt _ | VFloat _ => 2
  | VStr _ => 3
  | VBool _ => 8
  end.

Definition bson_leb (a b : Value) : bool :=
  match a, b with
  | VNull, VNull => true
  | VInt x, VInt y => Qle_bool (inject_Z x) (inject_Z y)
  | VInt x, VFloat y => Qle_bool (inject_Z x) y
  | VFloat x, VInt y => Qle_bool x (inject_Z y)
  | VFloat x, VFloat y => Qle_bool x y
  | VStr s, VStr t => String.leb s t
  | VBool x, VBool y => implb x y
  | _, _ => bson_rank a <? bson_rank b
  end.

(** The sort key of a document for a field other than [_id]. *)
Definition sort_key (key : string) (d : Document) : Value :=
  default VNull (fields d !! key).

(** [x] may stand in front of [y]; [direction] is [1] or [-1]. *)
Definition in_order (key : string) (direction : Z) (x y : Document) : bool :=
  if direction <? 0
  then bson_leb (sort_key key y) (sort_key key x)
  else bson_leb (sort_key key x) (sort_key key y).

Fixpoint insert_sorted {A} (le : A -> A -> bool) (x : A) (l : list A) : list A :=
  match l with
  | [] => [x]
  | y :: l' => if le x y then x :: y :: l' else y :: insert_sorted le x l'
  end.

Definition sort (key : string) (direction : Z) (docs : list Document) : list Document :=
  fold_right (insert_sorted (in_order key direction)) [] docs.

(** ** Schemas ([schemas.py]) *)

Module Client.
Record t := {
  name : string;
  contact_name : option string;
  email : option string;
  phone : option string;
  industry : option string;
  notes : option string
}.
End Client.

Module Website.
Record t := {
  client_id : string;
  url : string;
  cms : option string;
  status : option string;
  notes : option string
}.
End Website.

Module SeoMetric.
Record t := {
  client_id : string;
  date : option string;
  organic_traffic : option Z;
  keywords_top3 : option Z;
  keywords_top10 : option Z;
  domain_rating : option Q;
  notes : option string
}.
End SeoMetric.

Module GmbProfile.
Record t := {
  client_id : string;
  listing_name : option string;
  url : option string;
  avg_rating : option Q;
  reviews_count : option Z;
  primary_category : option string;
  notes : option string
}.
End GmbProfile.

(** An [Optional] field holding [None] is dumped as null. *)
Definition dump_opt {A} (f : A -> Value) (o : option A) : Value :=
  from_option f VNull o.

(** [BaseModel.model_dump()]: the declared fields, by name. *)
Class BaseModel (A : Type) := model_dump : A -> Dict.

#[global] Instance Client_model : BaseModel Client.t := fun c =>
  list_to_map
    [("name", VStr (Client.name c));
     ("contact_name", dump_opt VStr (Client.contact_name c));
     ("email", dump_opt VStr (Client.email c));
     ("phone", dump_opt VStr (Client.phone c));
     ("industry", dump_opt VStr (Client.industry c));
     ("notes", dump_opt VStr (Client.notes c))].

#[global] Instance Website_model : BaseModel Website.t := fun w =>
  list_to_map
    [("client_id", VStr (Website.client_id w));
     ("url", VStr (Website.url w));
     ("cms", dump_opt VStr (Website.cms w));
     ("status", dump_opt VStr (Website.status w));
     ("notes", dump_opt VStr (Website.notes w))].

#[global] Instance SeoMetric_model : BaseModel SeoMetric.t := fun m =>
  list_to_map
    [("client_id", VStr (SeoMetric.client_id m));
     ("date", dump_opt VStr (SeoMetric.date m));
     ("organic_traffic", dump_opt VInt (SeoMetric.organic_traffic m));
     ("keywords_top3", dump_opt VInt (SeoMetric.keywords_top3 m));
     ("keywords_top10", dump_opt VInt (SeoMetric.keywords_top10 m));
     ("domain_rating", dump_opt VFloat (SeoMetric.domain_rating m));
     ("notes", dump_opt VStr (SeoMetric.notes m))].

#[global] Instance GmbProfile_model : BaseModel GmbProfile.t := fun g =>
  list_to_map
    [("client_id", VStr (GmbProfile.client_id g));
     ("listing_name", dump_opt VStr (GmbProfile.listing_name g));
     ("url", dump_opt VStr (GmbProfile.url g));
     ("avg_rating", dump_opt VFloat (GmbProfile.avg_rating g));
     ("reviews_count", dump_opt VInt (GmbProfile.reviews_count g));
     ("primary_category", dump_opt VStr (GmbProfile.primary_category g));
     ("notes", dump_opt VStr (GmbProfile.notes g))].

(** ** Helpers of [database.py] *)

(** Modelled from the spec: [database.py], which defines
    [create_document], is not among the sources.  Section 4.2: the record
    is persisted as one new document holding its fields, and the
    identifier the store assigned is returned in its text form. *)
Definition create_document {A} `{BaseModel A}
    (collection_name : string) (data : A) : Handler string :=
  oid ← insert_one collection_name (model_dump data);
  mret (str oid).

(** Modelled from the spec: [database.py], which defines [get_documents],
    is not among the sources.  Section 4.2: the full collection, in the
    store's insertion order. *)
Definition get_documents (collection_name : string) : Handler (list Document) :=
  find collection_name [].

(** ** Request handlers ([main.py]) *)

Definition to_object_id (id_str : string) : Handler ObjectId :=
  match ObjectId_of_str id_str with
  | Some oid => mret oid
  | None => raise (HTTPException 400 "Invalid object id")
  end.

(** [d["_id"] = str(d["_id"])] on a document read from the store. *)
Definition str_id (d : Document) : Dict :=
  <["_id" := VStr (str (_id d))]> (fields d).

Definition create_client (client : Client.t) : Handler Dict :=
  client_id ← create_document "client" client;
  mret {["id" := VStr client_id]}.

Definition create_website (website : Website.t) : Handler Dict :=
  cid ← to_object_id (Website.client_id website);
  exists_ ← find_one "client" [IdEq cid];
  match exists_ with
  | None => raise (HTTPException 404 "Client not found")
  | Some _ =>
      website_id ← create_document "website" website;
      mret {["id" := VStr website_id]}
  end.

Definition create_seo_metric (metric : SeoMetric.t) : Handler Dict :=
  cid ← to_object_id (SeoMetric.client_id metric);
  found ← find_one "client" [IdEq cid];
  match found with
  | None => raise (HTTPException 404 "Client not found")
  | Some _ =>
      metric_id ← create_document "seometric" metric;
      mret {["id" := VStr metric_id]}
  end.

Definition create_gmb_profile (profile : GmbProfile.t) : Handler Dict :=
  cid ← to_object_id (GmbProfile.client_id profile);
  found ← find_one "client" [IdEq cid];
  match found with
  | None => raise (HTTPException 404 "Client not found")
  | Some _ =>
      gmb_id ← create_document "gmbprofile" profile;
      mret {["id" := VStr gmb_id]}
  end.

Definition list_clients : Handler (list Dict) :=
  items ← get_documents "client";
  mret (List.map str_id items).

(** The body [{"client": .., "websites": .., "seo": .., "gmb": ..}]. *)
Record ClientDetail := {
  client : Dict;
  websites : list Dict;
  seo : list Dict;
  gmb : list Dict
}.

Definition get_client_detail (client_id : string) : Handler ClientDetail :=
  cid ← to_object_id client_id;
  found ← find_one "client" [IdEq cid];
  match found with
  | None => raise (HTTPException 404 "Client not found")
  | Some c =>
      ws ← find "website" [FieldEq "client_id" client_id];
      ss ← find "seometric" [FieldEq "client_id" client_id];
      gs ← find "gmbprofile" [FieldEq "client_id" client_id];
      mret {| client := str_id c;
              websites := List.map str_id ws;
              seo := List.map str_id (sort "date" (-1) ss);
              gmb := List.map str_id gs |}
  end.

Definition delete_client (client_id : string) : Handler Dict :=
  cid ← to_object_id client_id;
  deleted_count ← delete_one "client" [IdEq cid];
  _ ← delete_many "website" [FieldEq "client_id" client_id];
  _ ← delete_many "seometric" [FieldEq "client_id" client_id];
  _ ← delete_many "gmbprofile" [FieldEq "client_id" client_id];
  if deleted_count =? 0
  then raise (HTTPException 404 "Client not found")
  else mret {["ok" := VBool true]}.

(** ** Validation of request bodies

    A request body is a JSON object.  How a JSON value is coerced to a
    Python type ([str], [int], [float], [EmailStr], [HttpUrl]) is the
    validation library's business and differs between its versions, so
    the five coercions are the members of a class; the schemas below are
    written over any instance of it. *)

#[local] Unset Elimination Schemes.
Inductive JSON :=
| JNull
| JBool (b : bool)
| JInt (z : Z)
| JFloat (q : Q)
| JStr (s : string)
| JArr (items : list JSON)
| JObj (members : list (string * JSON)).
#[local] Set Elimination Schemes.

Abbreviation Payload := (gmap string JSON).

Class Coercions := {
  as_str : JSON -> option string;
  as_int : JSON -> option Z;
  as_float : JSON -> option Q;
  as_EmailStr : JSON -> option string;
  as_HttpUrl : JSON -> option string
}.

(** The result of validating a body: the model, or the names of the
    fields that failed. *)
Inductive Validated (A : Type) :=
| Valid (a : A)
| Invalid (errors : list string).
Arguments Valid {A} a.
Arguments Invalid {A} errors.

(** Fields are validated one by one and all failures are collected. *)
Definition ap {A B} (f : Validated (A -> B)) (x : Validated A) : Validated B :=
  match f, x with
  | Valid g, Valid a => Valid (g a)
  | Valid _, Invalid e => Invalid e
  | Invalid e, Valid _ => Invalid e
  | Invalid e1, Invalid e2 => Invalid (e1 ++ e2)
  end.

Notation "f <*> x" := (ap f x) (at level 50, left associativity).

(** [Field(..., ge=lo)] and [Field(..., ge=lo, le=hi)] on top of a coercion. *)
Definition ge_int (lo : Z) (v : JSON -> option Z) (j : JSON) : option Z :=
  match v j with
  | Some z => if lo <=? z then Some z else None
  | None => None
  end.

Definition ge_le_float (lo hi : Q) (v : JSON -> option Q) (j : JSON) : option Q :=
  match v j with
  | Some q => if Qle_bool lo q && Qle_bool q hi then Some q else None
  | None => None
  end.

(** [k: T = Field(...)]: the field must be present and coerce to [T]. *)
Definition required {A} (k : string) (v : JSON -> option A) (p : Payload) : Validated A :=
  match p !! k with
  | Some j => match v j with Some a => Valid a | None => Invalid [k] end
  | None => Invalid [k]
  end.

(** [k: Optional[T] = Field(None, ...)]: absent or null gives [None]. *)
Definition optional {A} (k : string) (v : JSON -> option A) (p : Payload)
  : Validated (option A) :=
  match p !! k with
  | None | Some JNull => Valid None
  | Some j => match v j with Some a => Valid (Some a) | None => Invalid [k] end
  end.

Section Schemas.
Context `{Coercions}.

Definition Client_validate (p : Payload) : Validated Client.t :=
  Valid Client.Build_t
    <*> required "name" as_str p
    <*> optional "contact_name" as_str p
    <*> optional "email" as_EmailStr p
    <*> optional "phone" as_str p
    <*> optional "industry" as_str p
    <*> optional "notes" as_str p.

Definition Website_validate (p : Payload) : Validated Website.t :=
  Valid Website.Build_t
    <*> required "client_id" as_str p
    <*> required "url" as_HttpUrl p
    <*> optional "cms" as_str p
    <*> optional "status" as_str p
    <*> optional "notes" as_str p.

Definition SeoMetric_validate (p : Payload) : Validated SeoMetric.t :=
  Valid SeoMetric.Build_t
    <*> required "client_id" as_str p
    <*> optional "date" as_str p
    <*> optional "organic_traffic" (ge_int 0 as_int) p
    <*> optional "keywords_top3" (ge_int 0 as_int) p
    <*> optional "keywords_top10" (ge_int 0 as_int) p
    <*> optional "domain_rating" (ge_le_float 0 100 as_float) p
    <*> optional "notes" as_str p.

Definition GmbProfile_validate (p : Payload) : Validated GmbProfile.t :=
  Valid GmbProfile.Build_t
    <*> required "client_id" as_str p
    <*> optional "listing_name" as_str p
    <*> optional "url" as_HttpUrl p
    <*> optional "avg_rating" (ge_le_float 0 5 as_float) p
    <*> optional "reviews_count" (ge_int 0 as_int) p
    <*> optional "primary_category" as_str p
    <*> optional "notes" as_str p.

(** A [POST] route: the framework validates the body against the schema
    of the handler's parameter and answers 422 without calling the
    handler when validation fails. *)
Definition post {A} (validate : Payload -> Validated A)
    (handler : A -> Handler Dict) (body : Payload) : Handler Dict :=
  match validate body with
  | Valid a => handler a
  | Invalid errors => raise (RequestValidationError errors)
  end.

Definition post_clients : Payload -> Handler Dict := post Client_validate create_client.
Definition post_websites : Payload -> Handler Dict := post Website_validate create_website.
Definition post_seo : Payload -> Handler Dict := post SeoMetric_validate create_seo_metric.
Definition post_gmb : Payload -> Handler Dict := post GmbProfile_validate create_gmb_profile.

End Schemas.

(** An instance for the examples: a JSON value is accepted when it has
    exactly the declared type (an integer also where a float is asked
    for); the format checks of [EmailStr] and [HttpUrl] are left out. *)
Definition exact_str (j : JSON) : option string :=
  match j with JStr s => Some s | _ => None end.

Definition exact_int (j : JSON) : option Z :=
  match j with JInt z => Some z | _ => None end.

Definition exact_float (j : JSON) : option Q :=
  match j with JFloat q => Some q | JInt z => Some (inject_Z z) | _ => None end.

Definition exact : Coercions :=
  {| as_str := exact_str; as_int := exact_int; as_float := exact_float;
     as_EmailStr := exact_str; as_HttpUrl := exact_str |}.

(** ** Vocabulary of the properties *)

(** [d] carries [client_id] as the text of its [client_id] field. *)
Definition refers_to (client_id : string) (d : Document) : bool :=
  bool_decide (fields d !! "client_id" = Some (VStr client_id)).

(** The collections a client's delete cascades to. *)
Definition dependent_collections : list string :=
  ["website"; "seometric"; "gmbprofile"].

(** The integers a response body carries, in key order. *)
Definition int_entries (body : Dict) : list Z :=
  omap (fun kv => match snd kv with VInt n => Some n | _ => None end)
       (map_to_list body).

(** The status of the response to a request: 200 unless it failed. *)
Definition response_status {A} (out : Outcome A) : Z :=
  match out with
  | Return _ => 200
  | Raise e => status_code e
  end.

(** The body of a successful response. *)
Definition body {A} (out : Outcome A) : option A :=
  match out with
  | Return a => Some a
  | Raise _ => None
  end.

(** The [date] of a returned record; a record without one counts as null. *)
Definition date_of (r : Dict) : Value := default VNull (r !! "date").

(** Every record stands in front of those whose date is not later. *)
Definition newest_first (rs : list Dict) : Prop :=
  StronglySorted (fun a b => bson_leb (date_of b) (date_of a) = true) rs.

(** Among the records [rs] read back there is one with identifier [id]
    whose other fields are exactly [data]. *)
Definition returned_as (id : string) (data : Dict) (rs : list Dict) : Prop :=
  exists r, In r rs /\ r !! "_id" = Some (VStr id) /\ delete "_id" r = data.

(** The database a handler leaves behind. *)
Definition exec {A} (h : Handler A) (db : Database) : Database := snd (h db).

(** The fields each schema declares. *)
Definition Client_fields : list string :=
  ["name"; "contact_name"; "email"; "phone"; "industry"; "notes"].

Definition Website_fields : list string :=
  ["client_id"; "url"; "cms"; "status"; "notes"].

Definition SeoMetric_fields : list string :=
  ["client_id"; "date"; "organic_traffic"; "keywords_top3"; "keywords_top10";
   "domain_rating"; "notes"].

Definition GmbProfile_fields : list string :=
  ["client_id"; "listing_name"; "url"; "avg_rating"; "reviews_count";
   "primary_category"; "notes"].

(** Two bodies that differ at most in fields outside [declared]. *)
Definition agree_on (declared : list string) (p p' : Payload) : Prop :=
  forall k, In k declared -> p !! k = p' !! k.

Definition is_valid {A} (r : Validated A) : bool :=
  match r with Valid _ => true | Invalid _ => false end.

Definition errors_of {A} (r : Validated A) : list string :=
  match r with Valid _ => [] | Invalid errors => errors end.

(** Validation yields a model. *)
Definition accepted {A} (r : Validated A) : Prop := is_valid r = true.

(** Validation fails and names the field [k]. *)
Definition rejects_field {A} (r : Validated A) (k : string) : Prop :=
  is_valid r = false /\ In k (errors_of r).

(** The schema behind [validate] holds the integer field [k] to [lo] and
    above: a body whose [k] is an integer below [lo] is rejected with [k]
    among the errors; one whose [k] is [lo] or more is accepted exactly
    when the body without [k] is. *)
Definition int_at_least `{Coercions} {A}
    (validate : Payload -> Validated A) (k : string) (lo : Z) : Prop :=
  forall (p : Payload) j z,
    p !! k = Some j -> j <> JNull -> as_int j = Some z ->
    (z < lo -> rejects_field (validate p) k)
    /\ (lo <= z -> (accepted (validate p) <-> accepted (validate (delete k p)))).

(** The same for a float field [k] and the closed interval from [lo] to [hi]. *)
Definition float_within `{Coercions} {A}
    (validate : Payload -> Validated A) (k : string) (lo hi : Q) : Prop :=
  forall (p : Payload) j q,
    p !! k = Some j -> j <> JNull -> as_float j = Some q ->
    ((q < lo \/ hi < q)%Q -> rejects_field (validate p) k)
    /\ ((lo <= q /\ q <= hi)%Q ->
          (accepted (validate p) <-> accepted (validate (delete k p)))).

(** ** A worked scenario

    One client with two websites, three SEO snapshots and one business
    profile, entered through the handlers.  The identifier supply starts
    at ten, so the client's identifier is [00000000000000000000000a]. *)

Definition empty_db : Database :=
  {| collections := ∅; next_oid := 10; oplog := [] |}.

Definition acme_id : string := "00000000000000000000000a".

Definition acme : Client.t :=
  {| Client.name := "Acme"; Client.contact_name := Some "Wile";
     Client.email := Some "wile@acme.example"; Client.phone := None;
     Client.industry := None; Client.notes := None |}.

Definition site (client_id url : string) : Website.t :=
  {| Website.client_id := client_id; Website.url := url;
     Website.cms := None; Website.status := Some "live"; Website.notes := None |}.

Definition snapshot (client_id date : string) : SeoMetric.t :=
  {| SeoMetric.client_id := client_id; SeoMetric.date := Some date;
     SeoMetric.organic_traffic := Some 1200; SeoMetric.keywords_top3 := Some 0;
     SeoMetric.keywords_top10 := None; SeoMetric.domain_rating := Some (100 # 1)%Q;
     SeoMetric.notes := None |}.

Definition listing (client_id : string) : GmbProfile.t :=
  {| GmbProfile.client_id := client_id; GmbProfile.listing_name := Some "Acme HQ";
     GmbProfile.url := None; GmbProfile.avg_rating := Some (5 # 1)%Q;
     GmbProfile.reviews_count := Some 0; GmbProfile.primary_category := None;
     GmbProfile.notes := None |}.

Definition scenario_db : Database :=
  exec (create_gmb_profile (listing acme_id))
    (exec (create_seo_metric (snapshot acme_id "2024-02-01"))
      (exec (create_seo_metric (snapshot acme_id "2024-03-01"))
        (exec (create_seo_metric (snapshot acme_id "2024-01-01"))
          (exec (create_website (site acme_id "https://shop.acme.example/"))
            (exec (create_website (site acme_id "https://acme.example/"))
              (exec (create_client acme) empty_db)))))).

(** The scenario after its client record was removed behind the
    handlers' back: the dependents refer to an identifier no client has. *)
Definition orphan_db : Database := set_coll "client" [] scenario_db.

(** Request bodies for the scenario. *)
Definition client_body : Payload :=
  list_to_map [("name", JStr "Acme"); ("contact_name", JStr "Wile");
               ("email", JStr "wile@acme.example")].

Definition client_body_extra : Payload :=
  <["is_admin" := JBool true]> (<["_id" := JStr "ffffffffffffffffffffffff"]> client_body).

Definition seo_body (traffic : Z) (rating : Q) : Payload :=
  list_to_map [("client_id", JStr acme_id); ("organic_traffic", JInt traffic);
               ("domain_rating", JFloat rating)].

Definition gmb_body (rating : Q) (reviews : Z) : Payload :=
  list_to_map [("client_id", JStr acme_id); ("avg_rating", JFloat rating);
               ("reviews_count", JInt reviews)].

(** ** Vocabulary of the further properties *)

(** [str.upper] and [str.lower] on one ASCII character. *)
Definition upper_char (c : ascii) : ascii :=
  let n := N_of_ascii c in
  if ((97 <=? n) && (n <=? 122))%N then ascii_of_N (n - 32) else c.

Definition lower_char (c : ascii) : ascii :=
  let n := N_of_ascii c in
  if ((65 <=? n) && (n <=? 90))%N then ascii_of_N (n + 32) else c.

Fixpoint map_chars (f : ascii -> ascii) (s : string) : string :=
  match s with
  | EmptyString => EmptyString
  | String c s' => String (f c) (map_chars f s')
  end.

Fixpoint count_chars (p : ascii -> bool) (s : string) : nat :=
  match s with
  | EmptyString => 0
  | String c s' => (if p c then 1 else 0) + count_chars p s'
  end.

Definition is_hex_digit (c : ascii) : bool :=
  match Hex.digit_value c with Some _ => true | None => false end.

Fixpoint forall_chars (p : ascii -> bool) (s : string) : bool :=
  match s with
  | EmptyString => true
  | String c s' => p c && forall_chars p s'
  end.

(** [str.upper] and [str.lower] on a string of ASCII characters; on a
    string with other characters Python does more than this. *)
Definition upper (s : string) : string := map_chars upper_char s.
Definition lower (s : string) : string := map_chars lower_char s.

(** No two documents of [docs] share an [_id], as the store guarantees
    within a collection. *)
Definition unique_ids (docs : list Document) : Prop :=
  NoDup (List.map _id docs).

(** A snapshot of the scenario's client that carries no date. *)
Definition undated (notes : string) : SeoMetric.t :=
  {| SeoMetric.client_id := acme_id; SeoMetric.date := None;
     SeoMetric.organic_traffic := None; SeoMetric.keywords_top3 := None;
     SeoMetric.keywords_top10 := None; SeoMetric.domain_rating := None;
     SeoMetric.notes := Some notes |}.

(** The scenario with an undated snapshot entered before a dated one and
    another after it. *)
Definition undated_db : Database :=
  exec (create_seo_metric (undated "second"))
    (exec (create_seo_metric (snapshot acme_id "2024-05-01"))
      (exec (create_seo_metric (undated "first")) scenario_db)).

(** [s] is refused as an identifier, or is the text form of the
    identifier it is read as. *)
Definition canonical (s : string) : Prop :=
  forall cid, ObjectId_of_str s = Some cid -> str cid = s.

(** Every website, SEO snapshot and business profile carries, as its
    [client_id], the text form of the identifier of a stored client. *)
Definition referentially_intact (db : Database) : Prop :=
  forall name d,
    In name dependent_collections -> In d (coll db name) ->
    exists c, In c (coll db "client")
              /\ fields d !! "client_id" = Some (VStr (str (_id c))).

(** The scenario's client alone, before any dependent is entered. *)
Definition client_only_db : Database := exec (create_client acme) empty_db.

(** What the three handlers that create a dependent do with the record's
    [client_id] and the record's dump [doc], written out case by case. *)
Definition insert_for_client (name client_id : string) (doc : Dict) (db : Database)
  : Outcome Dict * Database :=
  match ObjectId_of_str client_id with
  | None => (Raise (HTTPException 400 "Invalid object id"), db)
  | Some cid =>
      match List.find (matches [IdEq cid]) (coll db "client") with
      | None =>
          (Raise (HTTPException 404 "Client not found"),
           log (OpFindOne "client" [IdEq cid]) db)
      | Some _ =>
          (Return {["id" := VStr (str (fresh_oid db))]},
           log (OpInsertOne name)
             (take_oid
                (set_coll name
                   (coll db name ++ [{| _id := fresh_oid db; fields := doc |}])
                   (log (OpFindOne "client" [IdEq cid]) db))))
      end
  end.

(** [res] is a success that gave the next identifier of [db] to one new
    document [doc], put it last in collection [name], and changed no
    other collection. *)
Definition appended (db : Database) (name : string) (doc : Dict)
    (res : Outcome Dict * Database) : Prop :=
  fst res = Return {["id" := VStr (str (fresh_oid db))]}
  /\ coll (snd res) name
       = (coll db name ++ [{| _id := fresh_oid db; fields := doc |}])%list
  /\ forall name', name' <> name -> coll (snd res) name' = coll db name'.

(** The fields each schema declares [Optional]. *)
Definition Client_optional : list string :=
  ["contact_name"; "email"; "phone"; "industry"; "notes"].

Definition Website_optional : list string := ["cms"; "status"; "notes"].

Definition SeoMetric_optional : list string :=
  ["date"; "organic_traffic"; "keywords_top3"; "keywords_top10"; "domain_rating";
   "notes"].

Definition GmbProfile_optional : list string :=
  ["listing_name"; "url"; "avg_rating"; "reviews_count"; "primary_category"; "notes"].

(** An optional integer is absent or at least [lo]; an optional float is
    absent or within [lo] and [hi]. *)
Definition at_least (lo : Z) (o : option Z) : Prop :=
  forall z, o = Some z -> lo <= z.

Definition within (lo hi : Q) (o : option Q) : Prop :=
  forall q, o = Some q -> (lo <= q /\ q <= hi)%Q.

(** ** Vocabulary of the read-back and of acceptance *)

Definition is_ascii (c : ascii) : bool := (N_of_ascii c <? 128)%N.

(** Specification, section 3: how a field is to be read back: an
    optional field that was not given reads as null. *)
Definition value_or_null {A} (f : A -> Value) (o : option A) : Value :=
  match o with
  | Some a => f a
  | None => VNull
  end.

(** Specification, section 3: the fields of each record kind, as they
    are to be read back. *)
Definition Client_record (c : Client.t) : list (string * Value) :=
  [("name", VStr (Client.name c));
   ("contact_name", value_or_null VStr (Client.contact_name c));
   ("email", value_or_null VStr (Client.email c));
   ("phone", value_or_null VStr (Client.phone c));
   ("industry", value_or_null VStr (Client.industry c));
   ("notes", value_or_null VStr (Client.notes c))].

Definition Website_record (w : Website.t) : list (string * Value) :=
  [("client_id", VStr (Website.client_id w));
   ("url", VStr (Website.url w));
   ("cms", value_or_null VStr (Website.cms w));
   ("status", value_or_null VStr (Website.status w));
   ("notes", value_or_null VStr (Website.notes w))].

Definition SeoMetric_record (m : SeoMetric.t) : list (string * Value) :=
  [("client_id", VStr (SeoMetric.client_id m));
   ("date", value_or_null VStr (SeoMetric.date m));
   ("organic_traffic", value_or_null VInt (SeoMetric.organic_traffic m));
   ("keywords_top3", value_or_null VInt (SeoMetric.keywords_top3 m));
   ("keywords_top10", value_or_null VInt (SeoMetric.keywords_top10 m));
   ("domain_rating", value_or_null VFloat (SeoMetric.domain_rating m));
   ("notes", value_or_null VStr (SeoMetric.notes m))].

Definition GmbProfile_record (g : GmbProfile.t) : list (string * Value) :=
  [("client_id", VStr (GmbProfile.client_id g));
   ("listing_name", value_or_null VStr (GmbProfile.listing_name g));
   ("url", value_or_null VStr (GmbProfile.url g));
   ("avg_rating", value_or_null VFloat (GmbProfile.avg_rating g));
   ("reviews_count", value_or_null VInt (GmbProfile.reviews_count g));
   ("primary_category", value_or_null VStr (GmbProfile.primary_category g));
   ("notes", value_or_null VStr (GmbProfile.notes g))].

(** [a] is what the body's field [k] is coerced to. *)
Definition coerced {A} (v : JSON -> option A) (k : string) (p : Payload) (a : A) : Prop :=
  exists j, p !! k = Some j /\ v j = Some a.

(** [o] is what the body's field [k] is coerced to, or nothing when the
    field is absent or null. *)
Definition coerced_or_absent {A} (v : JSON -> option A) (k : string) (p : Payload)
    (o : option A) : Prop :=
  match o with
  | Some a => exists j, p !! k = Some j /\ j <> JNull /\ v j = Some a
  | None => p !! k = None \/ p !! k = Some JNull
  end.

(** The model holds, field by field, what the body's fields are coerced to. *)
Definition Client_reads `{Coercions} (p : Payload) (c : Client.t) : Prop :=
  coerced as_str "name" p (Client.name c)
  /\ coerced_or_absent as_str "contact_name" p (Client.contact_name c)
  /\ coerced_or_absent as_EmailStr "email" p (Client.email c)
  /\ coerced_or_absent as_str "phone" p (Client.phone c)
  /\ coerced_or_absent as_str "industry" p (Client.industry c)
  /\ coerced_or_absent as_str "notes" p (Client.notes c).

Definition Website_reads `{Coercions} (p : Payload) (w : Website.t) : Prop :=
  coerced as_str "client_id" p (Website.client_id w)
  /\ coerced as_HttpUrl "url" p (Website.url w)
  /\ coerced_or_absent as_str "cms" p (Website.cms w)
  /\ coerced_or_absent as_str "status" p (Website.status w)
  /\ coerced_or_absent as_str "notes" p (Website.notes w).

Definition SeoMetric_reads `{Coercions} (p : Payload) (m : SeoMetric.t) : Prop :=
  coerced as_str "client_id" p (SeoMetric.client_id m)
  /\ coerced_or_absent as_str "date" p (SeoMetric.date m)
  /\ coerced_or_absent as_int "organic_traffic" p (SeoMetric.organic_traffic m)
  /\ coerced_or_absent as_int "keywords_top3" p (SeoMetric.keywords_top3 m)
  /\ coerced_or_absent as_int "keywords_top10" p (SeoMetric.keywords_top10 m)
  /\ coerced_or_absent as_float "domain_rating" p (SeoMetric.domain_rating m)
  /\ coerced_or_absent as_str "notes" p (SeoMetric.notes m).

Definition GmbProfile_reads `{Coercions} (p : Payload) (g : GmbProfile.t) : Prop :=
  coerced as_str "client_id" p (GmbProfile.client_id g)
  /\ coerced_or_absent as_str "listing_name" p (GmbProfile.listing_name g)
  /\ coerced_or_absent as_HttpUrl "url" p (GmbProfile.url g)
  /\ coerced_or_absent as_float "avg_rating" p (GmbProfile.avg_rating g)
  /\ coerced_or_absent as_int "reviews_count" p (GmbProfile.reviews_count g)
  /\ coerced_or_absent as_str "primary_category" p (GmbProfile.primary_category g)
  /\ coerced_or_absent as_str "notes" p (GmbProfile.notes g).

(** The body gives field [k] a value that [v] takes. *)
Definition given {A} (v : JSON -> option A) (k : string) (p : Payload) : bool :=
  match p !! k with
  | Some j => match v j with Some _ => true | None => false end
  | None => false
  end.

(** The body leaves field [k] out, gives it null, or gives it a value
    that [v] takes. *)
Definition given_or_absent {A} (v : JSON -> option A) (k : string) (p : Payload) : bool :=
  match p !! k with
  | None | Some JNull => true
  | Some j => match v j with Some _ => true | None => false end
  end.

(** The declared fields of a body are valid, whatever else it holds. *)
Definition Client_declared_valid `{Coercions} (p : Payload) : bool :=
  given as_str "name" p
  && given_or_absent as_str "contact_name" p
  && given_or_absent as_EmailStr "email" p
  && given_or_absent as_str "phone" p
  && given_or_absent as_str "industry" p
  && given_or_absent as_str "notes" p.

Definition Website_declared_valid `{Coercions} (p : Payload) : bool :=
  given as_str "client_id" p
  && given as_HttpUrl "url" p
  && given_or_absent as_str "cms" p
  && given_or_absent as_str "status" p
  && given_or_absent as_str "notes" p.

Definition SeoMetric_declared_valid `{Coercions} (p : Payload) : bool :=
  given as_str "client_id" p
  && given_or_absent as_str "date" p
  && given_or_absent (ge_int 0 as_int) "organic_traffic" p
  && given_or_absent (ge_int 0 as_int) "keywords_top3" p
  && given_or_absent (ge_int 0 as_int) "keywords_top10" p
  && given_or_absent (ge_le_float 0 100 as_float) "domain_rating" p
  && given_or_absent as_str "notes" p.

Definition GmbProfile_declared_valid `{Coercions} (p : Payload) : bool :=
  given as_str "client_id" p
  && given_or_absent as_str "listing_name" p
  && given_or_absent as_HttpUrl "url" p
  && given_or_absent (ge_le_float 0 5 as_float) "avg_rating" p
  && given_or_absent (ge_int 0 as_int) "reviews_count" p
  && given_or_absent as_str "primary_category" p
  && given_or_absent as_str "notes" p.

(** ** Coercions that normalise an e-mail address

    [EmailStr] returns the address with its domain in lower case.  This
    instance is [exact] with that one change; which addresses are refused
    is cut down to: one [@], with text on both sides. *)

Fixpoint split_at_sign (s : string) : option (string * string) :=
  match s with
  | EmptyString => None
  | String c s' =>
      if Ascii.eqb c "@" then Some (EmptyString, s')
      else match split_at_sign s' with
           | Some (local, domain) => Some (String c local, domain)
           | None => None
           end
  end.

Definition EmailStr_normalised (j : JSON) : option string :=
  match j with
  | JStr s =>
      match split_at_sign s with
      | Some (local, domain) =>
          if (0 <? String.length local)%nat && (0 <? String.length domain)%nat
             && (count_chars (Ascii.eqb "@") domain =? 0)%nat
          then Some (local ++ "@" ++ lower domain)
          else None
      | None => None
      end
  | _ => None
  end.

Definition normalising : Coercions :=
  {| as_str := exact_str; as_int := exact_int; as_float := exact_float;
     as_EmailStr := EmailStr_normalised; as_HttpUrl := exact_str |}.

(** Further request bodies for the scenario. *)
Definition mixed_case_email_body : Payload :=
  list_to_map [("name", JStr "Acme"); ("email", JStr "Wile@ACME.example")].

Definition website_body : Payload :=
  list_to_map [("client_id", JStr acme_id); ("url", JStr "https://acme.example/");
               ("status", JStr "live")].

Definition website_body_extra : Payload := <["tracking" := JBool true]> website_body.

Definition seo_body_extra : Payload := <["source" := JStr "crawler"]> (seo_body 0 100).

Definition gmb_body_extra : Payload := <["verified" := JBool true]> (gmb_body 5 0).

(** The models the bodies above validate to. *)
Definition seo_model : SeoMetric.t :=
  {| SeoMetric.client_id := acme_id; SeoMetric.date := None;
     SeoMetric.organic_traffic := Some 0; SeoMetric.keywords_top3 := None;
     SeoMetric.keywords_top10 := None; SeoMetric.domain_rating := Some 100%Q;
     SeoMetric.notes := None |}.

Definition gmb_model : GmbProfile.t :=
  {| GmbProfile.client_id := acme_id; GmbProfile.listing_name := None;
     GmbProfile.url := None; GmbProfile.avg_rating := Some 5%Q;
     GmbProfile.reviews_count := Some 0; GmbProfile.primary_category := None;
     GmbProfile.notes := None |}.

(** * Properties *)

(** ** Identifiers *)

Example ObjectId_lower :
  str <$> ObjectId_of_str "aaaaaaaaaaaaaaaaaaaaaaaa" = Some "aaaaaaaaaaaaaaaaaaaaaaaa".
Proof. reflexivity. Qed.

Example ObjectId_upper :
  str <$> ObjectId_of_str "AAAAAAAAAAAAAAAAAAAAAAAA" = Some "aaaaaaaaaaaaaaaaaaaaaaaa".
Proof. reflexivity. Qed.

Example ObjectId_short : ObjectId_of_str "abc" = None.
Proof. reflexivity. Qed.

Example ObjectId_not_hex : ObjectId_of_str "gggggggggggggggggggggggg" = None.
Proof. reflexivity. Qed.

Lemma hexlify_length bs : String.length (Hex.hexlify bs) = (2 * length bs)%nat.
Proof. induction bs as [|b bs IH]; simpl; [reflexivity | rewrite IH; lia]. Qed.

Lemma fromhex_hexlify bs : Hex.fromhex (Hex.hexlify bs) = Some bs.
Proof.
  induction bs as [|b bs IH]; [reflexivity|].
  cbn [Hex.hexlify]. destruct b; cbn; rewrite IH; reflexivity.
Qed.

(** A twelve-byte identifier is read back from its text form. *)
Lemma ObjectId_of_str_str oid :
  length (binary oid) = 12%nat -> ObjectId_of_str (str oid) = Some oid.
Proof.
  destruct oid as [bs]; simpl; intros Hlen.
  unfold ObjectId_of_str, str; simpl.
  rewrite hexlify_length, Hlen; simpl.
  rewrite fromhex_hexlify; reflexivity.
Qed.

Lemma str_fresh_oid_length db : String.length (str (fresh_oid db)) = 24%nat.
Proof. unfold str; rewrite hexlify_length; reflexivity. Qed.

Lemma str_fresh_oid_nonempty db : str (fresh_oid db) <> "".
Proof.
  intros Heq. pose proof (str_fresh_oid_length db) as Hlen.
  rewrite Heq in Hlen; discriminate.
Qed.

(** ** The database *)

Lemma coll_log op db name : coll (log op db) name = coll db name.
Proof. reflexivity. Qed.

Lemma coll_take_oid db name : coll (take_oid db) name = coll db name.
Proof. reflexivity. Qed.

Lemma coll_set_coll_eq name docs db : coll (set_coll name docs db) name = docs.
Proof. unfold coll, set_coll; simpl. rewrite lookup_insert_eq; reflexivity. Qed.

Lemma coll_set_coll_ne name name' docs db :
  name <> name' -> coll (set_coll name docs db) name' = coll db name'.
Proof.
  intros Hne; unfold coll, set_coll; simpl.
  rewrite lookup_insert_ne by assumption; reflexivity.
Qed.

Lemma matches_single c d : matches [c] d = cond_matches c d.
Proof. unfold matches; simpl. apply andb_true_r. Qed.

Lemma matches_client_id s d : matches [FieldEq "client_id" s] d = refers_to s d.
Proof. apply matches_single. Qed.

Lemma filter_ext_bool {A} (f g : A -> bool) l :
  (forall x, f x = g x) -> List.filter f l = List.filter g l.
Proof. intros Hfg; induction l as [|x l IH]; simpl; [|rewrite Hfg, IH]; reflexivity. Qed.

Lemma find_none_iff_existsb {A} (p : A -> bool) l :
  List.find p l = None <-> existsb p l = false.
Proof.
  induction l as [|x l IH]; simpl; [tauto|].
  destruct (p x); simpl; [split; discriminate | exact IH].
Qed.

Lemma no_client_find cid docs :
  (forall d, In d docs -> _id d <> cid) -> List.find (matches [IdEq cid]) docs = None.
Proof.
  intros Hno. induction docs as [|d docs IH]; cbn [List.find]; [reflexivity|].
  rewrite matches_single; cbn [cond_matches].
  rewrite bool_decide_eq_false_2 by (apply Hno; left; reflexivity).
  apply IH; intros d' Hd'; apply Hno; right; assumption.
Qed.

Lemma remove_first_no_match {A} (p : A -> bool) l :
  existsb p l = false -> remove_first p l = l.
Proof.
  induction l as [|x l IH]; simpl; [reflexivity|].
  destruct (p x); simpl; [discriminate|]. intros Hl; rewrite IH by assumption; reflexivity.
Qed.

Ltac run_handler :=
  unfold mbind, mret, Handler_bind, Handler_ret, raise,
    delete_one, delete_many, find_one, find, insert_one;
  cbv beta zeta.

Ltac simpl_coll :=
  repeat first
    [ rewrite coll_log
    | rewrite coll_take_oid
    | rewrite coll_set_coll_eq
    | rewrite coll_set_coll_ne by discriminate ].

(** ** Deleting a client *)

Lemma delete_client_run db s cid :
  ObjectId_of_str s = Some cid ->
  exists db',
    delete_client s db =
      (if existsb (matches [IdEq cid]) (coll db "client")
       then Return {["ok" := VBool true]}
       else Raise (HTTPException 404 "Client not found"), db')
    /\ coll db' "client" = remove_first (matches [IdEq cid]) (coll db "client")
    /\ (forall name, In name dependent_collections ->
          coll db' name = List.filter (fun d => negb (refers_to s d)) (coll db name))
    /\ (forall name, ~ In name ("client" :: dependent_collections) ->
          coll db' name = coll db name)
    /\ next_oid db' = next_oid db.
Proof.
  intros Hs. exists (snd (delete_client s db)).
  unfold delete_client, to_object_id. rewrite Hs. run_handler.
  destruct (existsb (matches [IdEq cid]) (coll db "client"));
    cbn [Z.eqb snd]; (split; [reflexivity|]).
  all: split; [simpl_coll; reflexivity|].
  all: split; [|split; [|reflexivity]].
  all: try (intros name [<-|[<-|[<-|[]]]]; simpl_coll;
            apply filter_ext_bool; intros d; rewrite matches_client_id; reflexivity).
  all: intros name Hname; unfold dependent_collections in Hname;
    repeat first
      [ rewrite coll_log
      | rewrite coll_set_coll_ne by (intros <-; apply Hname; simpl; tauto) ];
    reflexivity.
Qed.

Lemma malformed_id_raises s :
  ObjectId_of_str s = None ->
  to_object_id s = raise (HTTPException 400 "Invalid object id").
Proof. intros Hs; unfold to_object_id; rewrite Hs; reflexivity. Qed.

Lemma delete_client_malformed db s :
  ObjectId_of_str s = None ->
  delete_client s db = (Raise (HTTPException 400 "Invalid object id"), db).
Proof.
  intros Hs. unfold delete_client. rewrite (malformed_id_raises s Hs). reflexivity.
Qed.

Lemma existsb_client cid docs :
  existsb (matches [IdEq cid]) docs = true <-> exists d, In d docs /\ _id d = cid.
Proof.
  rewrite existsb_exists. split; intros [d [Hin Hd]]; exists d; split; try assumption.
  - rewrite matches_single in Hd. apply bool_decide_eq_true in Hd. exact Hd.
  - rewrite matches_single. apply bool_decide_eq_true. exact Hd.
Qed.

Lemma existsb_no_client cid docs :
  (forall d, In d docs -> _id d <> cid) -> existsb (matches [IdEq cid]) docs = false.
Proof. intros Hno. apply find_none_iff_existsb, no_client_find, Hno. Qed.

(** C1: whenever [delete_client] gets as far as the parent delete, the
    websites, SEO snapshots and business profiles whose [client_id] is the
    given string are removed, whether or not a client was matched; and
    when no client has the identifier the call fails with 404 "Client not
    found", the client collection untouched.  So a call that reports
    failure has still removed the dependents. *)
Theorem delete_client_cascades_without_parent db client_id cid :
  ObjectId_of_str client_id = Some cid ->
  exists out db',
    delete_client client_id db = (out, db')
    /\ (forall name, In name dependent_collections ->
          coll db' name =
            List.filter (fun d => negb (refers_to client_id d)) (coll db name))
    /\ ((forall d, In d (coll db "client") -> _id d <> cid) ->
          out = Raise (HTTPException 404 "Client not found")
          /\ coll db' "client" = coll db "client").
Proof.
  intros Hs. destruct (delete_client_run db client_id cid Hs)
    as (db' & Hrun & Hclient & Hdeps & _ & _).
  eexists; exists db'. split; [exact Hrun|]. split; [exact Hdeps|].
  intros Hno. pose proof (existsb_no_client cid _ Hno) as Hex.
  rewrite Hex. split; [reflexivity|].
  rewrite Hclient. apply remove_first_no_match, Hex.
Qed.

(** On the orphaned scenario the delete answers 404 and empties the three
    dependent collections. *)
Lemma delete_client_cascades_without_parent_witness :
  ObjectId_of_str acme_id = Some (fresh_oid empty_db)
  /\ (forall d, In d (coll orphan_db "client") -> _id d <> fresh_oid empty_db)
  /\ (exists out db',
        delete_client acme_id orphan_db = (out, db')
        /\ (forall name, In name dependent_collections ->
              coll db' name =
                List.filter (fun d => negb (refers_to acme_id d)) (coll orphan_db name))
        /\ out = Raise (HTTPException 404 "Client not found")
        /\ coll db' "client" = coll orphan_db "client")
  /\ List.map (fun name => length (coll orphan_db name)) dependent_collections
       = [2; 3; 1]%nat
  /\ List.map (fun name => length (coll (exec (delete_client acme_id) orphan_db) name))
       dependent_collections = [0; 0; 0]%nat.
Proof.
  assert (Hno : forall d, In d (coll orphan_db "client") -> _id d <> fresh_oid empty_db)
    by (intros d Hd; vm_compute in Hd; destruct Hd).
  split; [reflexivity|]. split; [exact Hno|]. split.
  - destruct (delete_client_cascades_without_parent orphan_db acme_id
                (fresh_oid empty_db) eq_refl) as (out & db' & Hrun & Hdeps & Hfail).
    exists out, db'. split; [exact Hrun|]. split; [exact Hdeps|]. exact (Hfail Hno).
  - split; vm_compute; reflexivity.
Defined.

(** C2, refuted as stated: the identifier with an upper-case [A] parses
    to the same [ObjectId] as the scenario client's lower-case one, whose
    text form every dependent stores.  Deleting by the upper-case string
    removes the client and none of its six dependents; the lower-case
    string removes them all. *)
Lemma delete_client_canonical_text_counterexample :
  ObjectId_of_str "00000000000000000000000A" = ObjectId_of_str acme_id
  /\ str <$> ObjectId_of_str "00000000000000000000000A" = Some acme_id
  /\ List.map (fun name => length (List.filter (refers_to acme_id) (coll scenario_db name)))
       dependent_collections = [2; 3; 1]%nat
  /\ fst (delete_client "00000000000000000000000A" scenario_db)
       = Return {["ok" := VBool true]}
  /\ List.map (fun name =>
         length (coll (exec (delete_client "00000000000000000000000A") scenario_db) name))
       dependent_collections = [2; 3; 1]%nat
  /\ List.map (fun name => length (coll (exec (delete_client acme_id) scenario_db) name))
       dependent_collections = [0; 0; 0]%nat.
Proof. repeat split; vm_compute; reflexivity. Qed.

(** C2 as amended: on a well-formed identifier the dependents removed are
    exactly the websites, SEO snapshots and business profiles whose stored
    [client_id] is the given string itself; when the given string is the
    text form of the identifier it parses to, those are the records whose
    [client_id] is that text form. *)
Theorem delete_client_removes_verbatim_matches db client_id cid :
  ObjectId_of_str client_id = Some cid ->
  exists out db',
    delete_client client_id db = (out, db')
    /\ (forall name, In name dependent_collections ->
          coll db' name =
            List.filter (fun d => negb (refers_to client_id d)) (coll db name))
    /\ (str cid = client_id ->
          forall name, In name dependent_collections ->
            coll db' name =
              List.filter (fun d => negb (refers_to (str cid) d)) (coll db name)).
Proof.
  intros Hs. destruct (delete_client_run db client_id cid Hs)
    as (db' & Hrun & _ & Hdeps & _ & _).
  eexists; exists db'. split; [exact Hrun|]. split; [exact Hdeps|].
  intros ->. exact Hdeps.
Qed.

Lemma delete_client_removes_verbatim_matches_witness :
  ObjectId_of_str acme_id = Some (fresh_oid empty_db)
  /\ str (fresh_oid empty_db) = acme_id
  /\ (exists out db',
        delete_client acme_id scenario_db = (out, db')
        /\ (forall name, In name dependent_collections ->
              coll db' name =
                List.filter (fun d => negb (refers_to acme_id d)) (coll scenario_db name))
        /\ (forall name, In name dependent_collections ->
              coll db' name =
                List.filter (fun d => negb (refers_to (str (fresh_oid empty_db)) d))
                  (coll scenario_db name))).
Proof.
  split; [reflexivity|]. split; [reflexivity|].
  destruct (delete_client_removes_verbatim_matches scenario_db acme_id
              (fresh_oid empty_db) eq_refl) as (out & db' & Hrun & Hdeps & Hcanon).
  exists out, db'. split; [exact Hrun|]. split; [exact Hdeps|].
  exact (Hcanon eq_refl).
Defined.

(** C8, refuted as stated: deleting the scenario's client removes seven
    records, and the body of the answer is [{"ok": true}], which carries
    no number. *)
Lemma delete_client_count_counterexample :
  fst (delete_client acme_id scenario_db) = Return {["ok" := VBool true]}
  /\ int_entries {["ok" := VBool true]} = []
  /\ List.map (fun name => length (coll scenario_db name))
       ("client" :: dependent_collections) = [1; 2; 3; 1]%nat
  /\ List.map (fun name => length (coll (exec (delete_client acme_id) scenario_db) name))
       ("client" :: dependent_collections) = [0; 0; 0; 0]%nat.
Proof. repeat split; vm_compute; reflexivity. Qed.

(** C8 as amended: on the well-formed identifier of an existing client
    [delete_client] answers [{"ok": true}], without a count, and the
    first client with that identifier is gone; on a well-formed
    identifier no client has it fails with 404; on a malformed one with
    400, the database untouched. *)
Theorem delete_client_outcome db client_id :
  (forall cid,
      ObjectId_of_str client_id = Some cid ->
      (exists d, In d (coll db "client") /\ _id d = cid) ->
      exists db',
        delete_client client_id db = (Return {["ok" := VBool true]}, db')
        /\ int_entries {["ok" := VBool true]} = []
        /\ coll db' "client" = remove_first (matches [IdEq cid]) (coll db "client"))
  /\ (forall cid,
        ObjectId_of_str client_id = Some cid ->
        (forall d, In d (coll db "client") -> _id d <> cid) ->
        exists db',
          delete_client client_id db = (Raise (HTTPException 404 "Client not found"), db'))
  /\ (ObjectId_of_str client_id = None ->
        delete_client client_id db = (Raise (HTTPException 400 "Invalid object id"), db)).
Proof.
  split; [|split].
  - intros cid Hs Hex.
    destruct (delete_client_run db client_id cid Hs) as (db' & Hrun & Hclient & _).
    apply existsb_client in Hex. rewrite Hex in Hrun.
    exists db'. split; [exact Hrun|]. split; [reflexivity | exact Hclient].
  - intros cid Hs Hno.
    destruct (delete_client_run db client_id cid Hs) as (db' & Hrun & _).
    rewrite (existsb_no_client cid _ Hno) in Hrun.
    exists db'. exact Hrun.
  - apply delete_client_malformed.
Qed.

Lemma delete_client_outcome_witness :
  (exists db',
      delete_client acme_id scenario_db = (Return {["ok" := VBool true]}, db')
      /\ int_entries {["ok" := VBool true]} = []
      /\ coll db' "client"
           = remove_first (matches [IdEq (fresh_oid empty_db)]) (coll scenario_db "client"))
  /\ (exists db',
        delete_client acme_id orphan_db
          = (Raise (HTTPException 404 "Client not found"), db'))
  /\ delete_client "acme" scenario_db
       = (Raise (HTTPException 400 "Invalid object id"), scenario_db).
Proof.
  split; [|split].
  - apply (proj1 (delete_client_outcome scenario_db acme_id) (fresh_oid empty_db) eq_refl).
    exists {| _id := fresh_oid empty_db; fields := model_dump acme |}.
    split; [vm_compute; left; reflexivity | reflexivity].
  - apply (proj1 (proj2 (delete_client_outcome orphan_db acme_id))
             (fresh_oid empty_db) eq_refl).
    intros d Hd. vm_compute in Hd. destruct Hd.
  - apply (proj2 (proj2 (delete_client_outcome scenario_db "acme"))). reflexivity.
Defined.

(** ** Creating dependents and reading one client *)

Lemma create_website_malformed db w :
  ObjectId_of_str (Website.client_id w) = None ->
  create_website w db = (Raise (HTTPException 400 "Invalid object id"), db).
Proof.
  intros Hs. unfold create_website. rewrite (malformed_id_raises _ Hs). reflexivity.
Qed.

Lemma create_seo_metric_malformed db m :
  ObjectId_of_str (SeoMetric.client_id m) = None ->
  create_seo_metric m db = (Raise (HTTPException 400 "Invalid object id"), db).
Proof.
  intros Hs. unfold create_seo_metric. rewrite (malformed_id_raises _ Hs). reflexivity.
Qed.

Lemma create_gmb_profile_malformed db g :
  ObjectId_of_str (GmbProfile.client_id g) = None ->
  create_gmb_profile g db = (Raise (HTTPException 400 "Invalid object id"), db).
Proof.
  intros Hs. unfold create_gmb_profile. rewrite (malformed_id_raises _ Hs). reflexivity.
Qed.

Lemma get_client_detail_malformed db s :
  ObjectId_of_str s = None ->
  get_client_detail s db = (Raise (HTTPException 400 "Invalid object id"), db).
Proof.
  intros Hs. unfold get_client_detail. rewrite (malformed_id_raises _ Hs). reflexivity.
Qed.

Lemma get_client_detail_unknown db s cid :
  ObjectId_of_str s = Some cid ->
  (forall d, In d (coll db "client") -> _id d <> cid) ->
  get_client_detail s db =
    (Raise (HTTPException 404 "Client not found"), log (OpFindOne "client" [IdEq cid]) db).
Proof.
  intros Hs Hno. unfold get_client_detail, to_object_id. rewrite Hs. run_handler.
  rewrite (no_client_find cid _ Hno). reflexivity.
Qed.

(** C3: a website, SEO snapshot or business profile whose [client_id] is
    a well-formed identifier that no client has is answered with 404
    "Client not found"; the only call made to the store is the lookup of
    the client, and every collection and the identifier supply are as
    before. *)
Theorem create_dependent_unknown_client db s cid w m g :
  Website.client_id w = s ->
  SeoMetric.client_id m = s ->
  GmbProfile.client_id g = s ->
  ObjectId_of_str s = Some cid ->
  (forall d, In d (coll db "client") -> _id d <> cid) ->
  exists db',
    create_website w db = (Raise (HTTPException 404 "Client not found"), db')
    /\ create_seo_metric m db = (Raise (HTTPException 404 "Client not found"), db')
    /\ create_gmb_profile g db = (Raise (HTTPException 404 "Client not found"), db')
    /\ collections db' = collections db
    /\ next_oid db' = next_oid db
    /\ oplog db' = (oplog db ++ [OpFindOne "client" [IdEq cid]])%list.
Proof.
  intros Hw Hm Hg Hs Hno. exists (log (OpFindOne "client" [IdEq cid]) db).
  unfold create_website, create_seo_metric, create_gmb_profile, to_object_id.
  rewrite Hw, Hm, Hg, Hs. run_handler.
  rewrite (no_client_find cid _ Hno). repeat split; reflexivity.
Qed.

Lemma create_dependent_unknown_client_witness :
  ObjectId_of_str "00000000000000000000000b" = Some {| binary := oid_bytes 11 |}
  /\ (forall d, In d (coll scenario_db "client") -> _id d <> {| binary := oid_bytes 11 |})
  /\ exists db',
      create_website (site "00000000000000000000000b" "https://acme.example/") scenario_db
        = (Raise (HTTPException 404 "Client not found"), db')
      /\ create_seo_metric (snapshot "00000000000000000000000b" "2024-01-01") scenario_db
        = (Raise (HTTPException 404 "Client not found"), db')
      /\ create_gmb_profile (listing "00000000000000000000000b") scenario_db
        = (Raise (HTTPException 404 "Client not found"), db')
      /\ collections db' = collections scenario_db
      /\ next_oid db' = next_oid scenario_db
      /\ oplog db' = (oplog scenario_db
                        ++ [OpFindOne "client" [IdEq {| binary := oid_bytes 11 |}]])%list.
Proof.
  assert (Hno : forall d, In d (coll scenario_db "client") ->
                          _id d <> {| binary := oid_bytes 11 |}).
  { intros d Hd. vm_compute in Hd. destruct Hd as [<-|[]]. vm_compute. discriminate. }
  split; [reflexivity|]. split; [exact Hno|].
  apply (create_dependent_unknown_client scenario_db "00000000000000000000000b"
           {| binary := oid_bytes 11 |}); try reflexivity. exact Hno.
Defined.

(** C4: a website, SEO snapshot or business profile whose [client_id]
    does not parse as an identifier is answered with 400 "Invalid object
    id"; the database, its log of store calls included, is exactly as
    before, so neither a lookup of the client nor a write took place. *)
Theorem create_dependent_malformed_id db w m g :
  ObjectId_of_str (Website.client_id w) = None ->
  ObjectId_of_str (SeoMetric.client_id m) = None ->
  ObjectId_of_str (GmbProfile.client_id g) = None ->
  create_website w db = (Raise (HTTPException 400 "Invalid object id"), db)
  /\ create_seo_metric m db = (Raise (HTTPException 400 "Invalid object id"), db)
  /\ create_gmb_profile g db = (Raise (HTTPException 400 "Invalid object id"), db).
Proof.
  intros Hw Hm Hg. split; [|split].
  - apply create_website_malformed, Hw.
  - apply create_seo_metric_malformed, Hm.
  - apply create_gmb_profile_malformed, Hg.
Qed.

Lemma create_dependent_malformed_id_witness :
  ObjectId_of_str "acme" = None
  /\ create_website (site "acme" "https://acme.example/") scenario_db
       = (Raise (HTTPException 400 "Invalid object id"), scenario_db)
  /\ create_seo_metric (snapshot "acme" "2024-01-01") scenario_db
       = (Raise (HTTPException 400 "Invalid object id"), scenario_db)
  /\ create_gmb_profile (listing "acme") scenario_db
       = (Raise (HTTPException 400 "Invalid object id"), scenario_db).
Proof.
  split; [reflexivity|].
  apply (create_dependent_malformed_id scenario_db (site "acme" "https://acme.example/")
           (snapshot "acme" "2024-01-01") (listing "acme")); reflexivity.
Defined.

(** C6, refuted as stated: a malformed identifier is answered with 400,
    not 404. *)
Lemma get_client_detail_malformed_counterexample :
  ObjectId_of_str "acme" = None
  /\ response_status (fst (get_client_detail "acme" scenario_db)) = 400
  /\ fst (get_client_detail "acme" scenario_db)
       = Raise (HTTPException 400 "Invalid object id").
Proof. repeat split; vm_compute; reflexivity. Qed.

(** C6 as amended: reading a client fails with 404 when the identifier is
    well-formed and no client has it, and with 400 when the identifier is
    malformed. *)
Theorem get_client_detail_failures db client_id :
  (forall cid,
      ObjectId_of_str client_id = Some cid ->
      (forall d, In d (coll db "client") -> _id d <> cid) ->
      exists db',
        get_client_detail client_id db = (Raise (HTTPException 404 "Client not found"), db')
        /\ response_status (fst (get_client_detail client_id db)) = 404)
  /\ (ObjectId_of_str client_id = None ->
        get_client_detail client_id db = (Raise (HTTPException 400 "Invalid object id"), db)
        /\ response_status (fst (get_client_detail client_id db)) = 400).
Proof.
  split.
  - intros cid Hs Hno. rewrite (get_client_detail_unknown db client_id cid Hs Hno).
    eexists; split; reflexivity.
  - intros Hs. rewrite (get_client_detail_malformed db client_id Hs).
    split; reflexivity.
Qed.

Lemma get_client_detail_failures_witness :
  (exists db',
      get_client_detail acme_id orphan_db
        = (Raise (HTTPException 404 "Client not found"), db')
      /\ response_status (fst (get_client_detail acme_id orphan_db)) = 404)
  /\ get_client_detail "acme" scenario_db
       = (Raise (HTTPException 400 "Invalid object id"), scenario_db)
  /\ response_status (fst (get_client_detail "acme" scenario_db)) = 400.
Proof.
  split.
  - apply (proj1 (get_client_detail_failures orphan_db acme_id) (fresh_oid empty_db) eq_refl).
    intros d Hd. vm_compute in Hd. destruct Hd.
  - apply (proj2 (get_client_detail_failures scenario_db "acme")). reflexivity.
Defined.

(** ** Sorting *)

Section InsertionSort.
Context {A : Type} (le : A -> A -> bool).
Hypothesis le_total : forall x y, le x y = true \/ le y x = true.
Hypothesis le_trans : forall x y z, le x y = true -> le y z = true -> le x z = true.

Lemma insert_sorted_perm x l : Permutation (insert_sorted le x l) (x :: l).
Proof.
  induction l as [|y l IH]; simpl; [reflexivity|].
  destruct (le x y); [reflexivity|].
  rewrite IH. apply perm_swap.
Qed.

Lemma insertion_sort_perm l : Permutation (fold_right (insert_sorted le) [] l) l.
Proof.
  induction l as [|x l IH]; simpl; [reflexivity|].
  rewrite insert_sorted_perm, IH. reflexivity.
Qed.

Lemma insert_sorted_sorted x l :
  StronglySorted (fun a b => le a b = true) l ->
  StronglySorted (fun a b => le a b = true) (insert_sorted le x l).
Proof.
  induction l as [|y l IH]; simpl; intros Hl.
  - constructor; constructor.
  - inversion Hl as [|? ? Hl' Hy]; subst.
    destruct (le x y) eqn:Hxy.
    + constructor; [exact Hl|]. constructor; [exact Hxy|].
      eapply Forall_impl; [exact Hy|]. intros z Hz. eapply le_trans; eassumption.
    + constructor; [apply IH, Hl'|].
      eapply Permutation_Forall; [symmetry; apply insert_sorted_perm|].
      constructor; [|exact Hy].
      destruct (le_total x y) as [Hc|Hc]; [congruence | exact Hc].
Qed.

Lemma insertion_sort_sorted l :
  StronglySorted (fun a b => le a b = true) (fold_right (insert_sorted le) [] l).
Proof.
  induction l as [|x l IH]; simpl; [constructor | apply insert_sorted_sorted, IH].
Qed.

End InsertionSort.

Lemma string_leb_iff s t : String.leb s t = true <-> s = t \/ String_as_OT.lt s t.
Proof.
  unfold String.leb. rewrite <- String_as_OT.cmp_eq, <- String_as_OT.cmp_lt.
  unfold String_as_OT.cmp. destruct (String.compare s t); split; intros H;
    try reflexivity; try discriminate; try tauto.
  destruct H; discriminate.
Qed.

Lemma string_leb_trans s t u :
  String.leb s t = true -> String.leb t u = true -> String.leb s u = true.
Proof.
  rewrite !string_leb_iff. intros [->|Hst] [->|Htu]; auto.
  right. eapply String_as_OT.lt_trans; eassumption.
Qed.

Lemma Qle_bool_total x y : Qle_bool x y = true \/ Qle_bool y x = true.
Proof.
  rewrite !Qle_bool_iff. destruct (Qlt_le_dec x y); [left; apply Qlt_le_weak|right]; assumption.
Qed.

Lemma Qle_bool_trans x y z :
  Qle_bool x y = true -> Qle_bool y z = true -> Qle_bool x z = true.
Proof. rewrite !Qle_bool_iff. apply Qle_trans. Qed.

Lemma bson_leb_total a b : bson_leb a b = true \/ bson_leb b a = true.
Proof.
  destruct a, b; simpl; try (left; reflexivity); try (right; reflexivity);
    try apply Qle_bool_total.
  - destruct b, b0; simpl; auto.
  - apply String.leb_total.
Qed.

Lemma bson_leb_trans a b c :
  bson_leb a b = true -> bson_leb b c = true -> bson_leb a c = true.
Proof.
  destruct a, b, c; simpl; try discriminate; try reflexivity;
    try apply Qle_bool_trans; try apply string_leb_trans.
  destruct b, b0, b1; simpl; auto.
Qed.

Lemma in_order_desc_total key x y :
  in_order key (-1) x y = true \/ in_order key (-1) y x = true.
Proof. unfold in_order; simpl. apply bson_leb_total. Qed.

Lemma in_order_desc_trans key x y z :
  in_order key (-1) x y = true -> in_order key (-1) y z = true ->
  in_order key (-1) x z = true.
Proof. unfold in_order; simpl. intros Hxy Hyz. eapply bson_leb_trans; eassumption. Qed.

Lemma sort_perm key direction docs : Permutation (sort key direction docs) docs.
Proof. apply insertion_sort_perm. Qed.

Lemma sort_desc_sorted key docs :
  StronglySorted (fun a b => in_order key (-1) a b = true) (sort key (-1) docs).
Proof.
  apply insertion_sort_sorted; [apply in_order_desc_total | apply in_order_desc_trans].
Qed.

Lemma date_of_str_id d : date_of (str_id d) = sort_key "date" d.
Proof.
  unfold date_of, str_id, sort_key. rewrite lookup_insert_ne by discriminate. reflexivity.
Qed.

Lemma StronglySorted_map {A B} (R : A -> A -> Prop) (R' : B -> B -> Prop) (f : A -> B) l :
  (forall a b, R a b -> R' (f a) (f b)) ->
  StronglySorted R l -> StronglySorted R' (List.map f l).
Proof.
  intros HR. induction 1 as [|a l Hl IH Ha]; simpl; constructor; [exact IH|].
  apply Forall_map. eapply Forall_impl; [exact Ha|]. intros b Hb. apply HR, Hb.
Qed.

Lemma newest_first_sort docs : newest_first (List.map str_id (sort "date" (-1) docs)).
Proof.
  unfold newest_first. eapply StronglySorted_map; [|apply sort_desc_sorted].
  intros a b Hab. rewrite !date_of_str_id. exact Hab.
Qed.

(** ** Reading one client *)

(** C5: for a client that exists, [get_client_detail] answers with that
    client, with every website and every business profile whose
    [client_id] is the requested string, in the store's order, and with
    the SEO snapshots whose [client_id] is the requested string, each
    exactly once, the later date first.  On the scenario (two websites,
    snapshots entered as 2024-01-01, 2024-03-01, 2024-02-01, one profile)
    it returns 2, 3 and 1 records, the snapshots as 2024-03-01,
    2024-02-01, 2024-01-01. *)
Theorem get_client_detail_existing :
  (forall db client_id cid c,
      ObjectId_of_str client_id = Some cid ->
      List.find (matches [IdEq cid]) (coll db "client") = Some c ->
      exists r db',
        get_client_detail client_id db = (Return r, db')
        /\ client r = str_id c
        /\ websites r
             = List.map str_id (List.filter (refers_to client_id) (coll db "website"))
        /\ gmb r
             = List.map str_id (List.filter (refers_to client_id) (coll db "gmbprofile"))
        /\ Permutation (seo r)
             (List.map str_id (List.filter (refers_to client_id) (coll db "seometric")))
        /\ newest_first (seo r)
        /\ collections db' = collections db)
  /\ (fun r => (length (websites r), length (seo r), length (gmb r),
                List.map date_of (seo r)))
       <$> body (fst (get_client_detail acme_id scenario_db))
     = Some (2, 3, 1, [VStr "2024-03-01"; VStr "2024-02-01"; VStr "2024-01-01"])%nat.
Proof.
  split; [|vm_compute; reflexivity].
  intros db client_id cid c Hs Hc.
  unfold get_client_detail, to_object_id. rewrite Hs. run_handler.
  rewrite Hc. do 2 eexists. split; [reflexivity|]. cbn [client websites seo gmb].
  simpl_coll.
  rewrite !(filter_ext_bool _ _ _ (matches_client_id client_id)).
  repeat split; try reflexivity.
  - apply Permutation_map, sort_perm.
  - apply newest_first_sort.
Qed.

Lemma get_client_detail_existing_witness :
  ObjectId_of_str acme_id = Some (fresh_oid empty_db)
  /\ List.find (matches [IdEq (fresh_oid empty_db)]) (coll scenario_db "client")
       = Some {| _id := fresh_oid empty_db; fields := model_dump acme |}
  /\ exists r db',
      get_client_detail acme_id scenario_db = (Return r, db')
      /\ client r = str_id {| _id := fresh_oid empty_db; fields := model_dump acme |}
      /\ websites r
           = List.map str_id (List.filter (refers_to acme_id) (coll scenario_db "website"))
      /\ gmb r
           = List.map str_id (List.filter (refers_to acme_id) (coll scenario_db "gmbprofile"))
      /\ Permutation (seo r)
           (List.map str_id (List.filter (refers_to acme_id) (coll scenario_db "seometric")))
      /\ newest_first (seo r)
      /\ collections db' = collections scenario_db.
Proof.
  assert (Hc : List.find (matches [IdEq (fresh_oid empty_db)]) (coll scenario_db "client")
               = Some {| _id := fresh_oid empty_db; fields := model_dump acme |})
    by (vm_compute; reflexivity).
  split; [reflexivity|]. split; [exact Hc|].
  exact (proj1 get_client_detail_existing scenario_db acme_id (fresh_oid empty_db)
           _ eq_refl Hc).
Defined.

(** ** Round trip *)

Lemma str_id_returned d data :
  fields d = data -> data !! "_id" = None ->
  str_id d !! "_id" = Some (VStr (str (_id d))) /\ delete "_id" (str_id d) = data.
Proof.
  intros <- Hnone. unfold str_id. split.
  - apply lookup_insert_eq.
  - rewrite delete_insert_eq. apply delete_id, Hnone.
Qed.

Lemma returned_as_new docs oid data (p : Document -> bool) :
  data !! "_id" = None ->
  p {| _id := oid; fields := data |} = true ->
  returned_as (str oid) data
    (List.map str_id (List.filter p (docs ++ [{| _id := oid; fields := data |}]))).
Proof.
  intros Hnone Hp. exists (str_id {| _id := oid; fields := data |}).
  split.
  - apply in_map, filter_In. split; [|exact Hp].
    apply in_or_app. right. left. reflexivity.
  - apply (str_id_returned {| _id := oid; fields := data |} data eq_refl Hnone).
Qed.

Lemma returned_as_perm id data rs rs' :
  Permutation rs rs' -> returned_as id data rs -> returned_as id data rs'.
Proof.
  intros Hp (r & Hin & Hr). exists r. split; [|exact Hr].
  eapply Permutation_in; eassumption.
Qed.

(** The dump of a model determines the model: reading the dump back is
    reading the fields as they were entered. *)
Ltac same_field H k :=
  let Hk := fresh "Hk" in
  pose proof (f_equal (fun d : Dict => d !! k) H) as Hk;
  vm_compute in Hk;
  repeat match type of Hk with
         | context [match ?o with Some _ => _ | None => _ end] => destruct o
         end;
  inversion Hk; subst; clear Hk.

Lemma Client_dump_inj (c c' : Client.t) : model_dump c = model_dump c' -> c = c'.
Proof.
  destruct c, c'. intros H.
  same_field H "name"; same_field H "contact_name"; same_field H "email";
    same_field H "phone"; same_field H "industry"; same_field H "notes";
    reflexivity.
Qed.

Lemma Website_dump_inj (w w' : Website.t) : model_dump w = model_dump w' -> w = w'.
Proof.
  destruct w, w'. intros H.
  same_field H "client_id"; same_field H "url"; same_field H "cms";
    same_field H "status"; same_field H "notes"; reflexivity.
Qed.

Lemma SeoMetric_dump_inj (m m' : SeoMetric.t) : model_dump m = model_dump m' -> m = m'.
Proof.
  destruct m, m'. intros H.
  same_field H "client_id"; same_field H "date"; same_field H "organic_traffic";
    same_field H "keywords_top3"; same_field H "keywords_top10";
    same_field H "domain_rating"; same_field H "notes"; reflexivity.
Qed.

Lemma GmbProfile_dump_inj (g g' : GmbProfile.t) : model_dump g = model_dump g' -> g = g'.
Proof.
  destruct g, g'. intros H.
  same_field H "client_id"; same_field H "listing_name"; same_field H "url";
    same_field H "avg_rating"; same_field H "reviews_count";
    same_field H "primary_category"; same_field H "notes"; reflexivity.
Qed.

Lemma create_client_round_trip db c :
  exists db',
    create_client c db = (Return {["id" := VStr (str (fresh_oid db))]}, db')
    /\ exists items db'',
        list_clients db' = (Return items, db'')
        /\ returned_as (str (fresh_oid db)) (model_dump c) items.
Proof.
  unfold create_client, create_document, list_clients, get_documents. run_handler.
  eexists. split; [reflexivity|]. do 2 eexists. split; [reflexivity|].
  simpl_coll. apply returned_as_new; reflexivity.
Qed.

Ltac created H Hs Hc :=
  unfold to_object_id in H;
  match type of H with
  | context [ObjectId_of_str ?s] => destruct (ObjectId_of_str s) as [?cid|] eqn:Hs
  end; [|discriminate H];
  revert H; run_handler;
  match goal with
  | |- context [List.find ?p ?l] => destruct (List.find p l) as [?c|] eqn:Hc
  end; [|discriminate];
  unfold create_document; run_handler; intros [= <- <-].

Lemma create_website_round_trip db w out db' :
  create_website w db = (Return out, db') ->
  out = {["id" := VStr (str (fresh_oid db))]}
  /\ exists r db'',
      get_client_detail (Website.client_id w) db' = (Return r, db'')
      /\ returned_as (str (fresh_oid db)) (model_dump w) (websites r).
Proof.
  intros H. unfold create_website in H. created H Hs Hc.
  split; [reflexivity|].
  unfold get_client_detail, to_object_id. rewrite Hs. run_handler. simpl_coll.
  rewrite Hc. do 2 eexists. split; [reflexivity|]. cbn [websites]. simpl_coll.
  apply (returned_as_new _ (fresh_oid db)); [reflexivity|].
  rewrite matches_single. apply bool_decide_eq_true. reflexivity.
Qed.

Lemma create_seo_metric_round_trip db m out db' :
  create_seo_metric m db = (Return out, db') ->
  out = {["id" := VStr (str (fresh_oid db))]}
  /\ exists r db'',
      get_client_detail (SeoMetric.client_id m) db' = (Return r, db'')
      /\ returned_as (str (fresh_oid db)) (model_dump m) (seo r).
Proof.
  intros H. unfold create_seo_metric in H. created H Hs Hc.
  split; [reflexivity|].
  unfold get_client_detail, to_object_id. rewrite Hs. run_handler. simpl_coll.
  rewrite Hc. do 2 eexists. split; [reflexivity|]. cbn [seo]. simpl_coll.
  eapply returned_as_perm; [apply Permutation_map; symmetry; apply sort_perm|].
  apply (returned_as_new _ (fresh_oid db)); [reflexivity|].
  rewrite matches_single. apply bool_decide_eq_true. reflexivity.
Qed.

Lemma create_gmb_profile_round_trip db g out db' :
  create_gmb_profile g db = (Return out, db') ->
  out = {["id" := VStr (str (fresh_oid db))]}
  /\ exists r db'',
      get_client_detail (GmbProfile.client_id g) db' = (Return r, db'')
      /\ returned_as (str (fresh_oid db)) (model_dump g) (gmb r).
Proof.
  intros H. unfold create_gmb_profile in H. created H Hs Hc.
  split; [reflexivity|].
  unfold get_client_detail, to_object_id. rewrite Hs. run_handler. simpl_coll.
  rewrite Hc. do 2 eexists. split; [reflexivity|]. cbn [gmb]. simpl_coll.
  apply (returned_as_new _ (fresh_oid db)); [reflexivity|].
  rewrite matches_single. apply bool_decide_eq_true. reflexivity.
Qed.


(** ** Validation *)

Lemma required_agree {A} k (v : JSON -> option A) (p p' : Payload) :
  p !! k = p' !! k -> required k v p = required k v p'.
Proof. intros Hk; unfold required; rewrite Hk; reflexivity. Qed.

Lemma optional_agree {A} k (v : JSON -> option A) (p p' : Payload) :
  p !! k = p' !! k -> optional k v p = optional k v p'.
Proof. intros Hk; unfold optional; rewrite Hk; reflexivity. Qed.

Ltac agree_fields Hagree p p' :=
  repeat first
    [ rewrite (required_agree _ _ p p') by (apply Hagree; simpl; tauto)
    | rewrite (optional_agree _ _ p p') by (apply Hagree; simpl; tauto) ];
  reflexivity.

Lemma agree_on_insert declared (p : Payload) k j :
  ~ In k declared -> agree_on declared (<[k := j]> p) p.
Proof.
  intros Hk k' Hk'. apply lookup_insert_ne. intros ->. exact (Hk Hk').
Qed.

Section SchemaProperties.
Context `{Coercions}.

Lemma Client_validate_agree p p' :
  agree_on Client_fields p p' -> Client_validate p = Client_validate p'.
Proof. intros Hagree. unfold Client_validate. agree_fields Hagree p p'. Qed.

Lemma Website_validate_agree p p' :
  agree_on Website_fields p p' -> Website_validate p = Website_validate p'.
Proof. intros Hagree. unfold Website_validate. agree_fields Hagree p p'. Qed.

Lemma SeoMetric_validate_agree p p' :
  agree_on SeoMetric_fields p p' -> SeoMetric_validate p = SeoMetric_validate p'.
Proof. intros Hagree. unfold SeoMetric_validate. agree_fields Hagree p p'. Qed.

Lemma GmbProfile_validate_agree p p' :
  agree_on GmbProfile_fields p p' -> GmbProfile_validate p = GmbProfile_validate p'.
Proof. intros Hagree. unfold GmbProfile_validate. agree_fields Hagree p p'. Qed.

Lemma post_clients_stores p c db :
  Client_validate p = Valid c ->
  exists db',
    post_clients p db = (Return {["id" := VStr (str (fresh_oid db))]}, db')
    /\ coll db' "client"
         = (coll db "client" ++ [{| _id := fresh_oid db; fields := model_dump c |}])%list.
Proof.
  intros Hc. unfold post_clients, post. rewrite Hc.
  unfold create_client, create_document. run_handler.
  eexists. split; [reflexivity|]. simpl_coll. reflexivity.
Qed.

End SchemaProperties.

Lemma is_valid_ap {A B} (f : Validated (A -> B)) (x : Validated A) :
  is_valid (f <*> x) = is_valid f && is_valid x.
Proof. destruct f, x; reflexivity. Qed.

Lemma errors_of_ap {A B} (f : Validated (A -> B)) (x : Validated A) :
  errors_of (f <*> x) = (errors_of f ++ errors_of x)%list.
Proof. destruct f, x; simpl; rewrite ?app_nil_r; reflexivity. Qed.

Lemma optional_present {A} k (v : JSON -> option A) (p : Payload) j :
  p !! k = Some j -> j <> JNull ->
  optional k v p = match v j with Some a => Valid (Some a) | None => Invalid [k] end.
Proof. intros Hk Hj. unfold optional. rewrite Hk. destruct j; congruence. Qed.

Lemma optional_delete {A} k (v : JSON -> option A) (p : Payload) :
  optional k v (delete k p) = Valid None.
Proof. unfold optional. rewrite lookup_delete_eq. reflexivity. Qed.

Lemma optional_delete_ne {A} k k' (v : JSON -> option A) (p : Payload) :
  k <> k' -> optional k' v (delete k p) = optional k' v p.
Proof. intros Hne. apply optional_agree, lookup_delete_ne, Hne. Qed.

Lemma required_delete_ne {A} k k' (v : JSON -> option A) (p : Payload) :
  k <> k' -> required k' v (delete k p) = required k' v p.
Proof. intros Hne. apply required_agree, lookup_delete_ne, Hne. Qed.

Lemma ge_int_below lo v j z : v j = Some z -> z < lo -> ge_int lo v j = None.
Proof.
  intros Hv Hz. unfold ge_int. rewrite Hv.
  destruct (lo <=? z) eqn:Hle; [apply Z.leb_le in Hle; lia | reflexivity].
Qed.

Lemma ge_int_from lo v j z : v j = Some z -> lo <= z -> ge_int lo v j = Some z.
Proof.
  intros Hv Hz. unfold ge_int. rewrite Hv.
  destruct (lo <=? z) eqn:Hle; [reflexivity | apply Z.leb_gt in Hle; lia].
Qed.

Lemma ge_le_float_outside lo hi v j q :
  v j = Some q -> (q < lo \/ hi < q)%Q -> ge_le_float lo hi v j = None.
Proof.
  intros Hv Hq. unfold ge_le_float. rewrite Hv.
  destruct (Qle_bool lo q) eqn:Hlo, (Qle_bool q hi) eqn:Hhi; try reflexivity.
  apply Qle_bool_iff in Hlo, Hhi.
  destruct Hq as [Hq|Hq]; [apply Qlt_not_le in Hq | apply Qlt_not_le in Hq]; tauto.
Qed.

Lemma ge_le_float_inside lo hi v j q :
  v j = Some q -> (lo <= q /\ q <= hi)%Q -> ge_le_float lo hi v j = Some q.
Proof.
  intros Hv [Hlo Hhi]. unfold ge_le_float. rewrite Hv.
  apply Qle_bool_iff in Hlo, Hhi. rewrite Hlo, Hhi. reflexivity.
Qed.

Ltac field_rejected Hk Hj Hv :=
  split;
  [ rewrite !is_valid_ap, (optional_present _ _ _ _ Hk Hj), Hv; simpl;
    rewrite ?andb_false_r; reflexivity
  | rewrite !errors_of_ap, (optional_present _ _ _ _ Hk Hj), Hv; simpl;
    rewrite !in_app_iff; simpl; tauto ].

Ltac field_accepted Hk Hj Hv :=
  unfold accepted;
  rewrite !is_valid_ap, (optional_present _ _ _ _ Hk Hj), Hv, optional_delete;
  rewrite ?required_delete_ne, ?optional_delete_ne by discriminate;
  reflexivity.

Ltac int_field validate :=
  let Hc := fresh "Hc" in
  intros p j z Hk Hj Hv; split; intros Hz;
  [ pose proof (ge_int_below 0 _ _ _ Hv Hz) as Hc;
    unfold rejects_field, validate; field_rejected Hk Hj Hc
  | pose proof (ge_int_from 0 _ _ _ Hv Hz) as Hc;
    unfold validate; field_accepted Hk Hj Hc ].

Ltac float_field validate lo hi :=
  let Hc := fresh "Hc" in
  intros p j q Hk Hj Hv; split; intros Hq;
  [ pose proof (ge_le_float_outside lo hi _ _ _ Hv Hq) as Hc;
    unfold rejects_field, validate; field_rejected Hk Hj Hc
  | pose proof (ge_le_float_inside lo hi _ _ _ Hv Hq) as Hc;
    unfold validate; field_accepted Hk Hj Hc ].

Section NumericRanges.
Context `{Coercions}.

Lemma SeoMetric_organic_traffic : int_at_least SeoMetric_validate "organic_traffic" 0.
Proof. int_field @SeoMetric_validate. Qed.

Lemma SeoMetric_keywords_top3 : int_at_least SeoMetric_validate "keywords_top3" 0.
Proof. int_field @SeoMetric_validate. Qed.

Lemma SeoMetric_keywords_top10 : int_at_least SeoMetric_validate "keywords_top10" 0.
Proof. int_field @SeoMetric_validate. Qed.

Lemma SeoMetric_domain_rating : float_within SeoMetric_validate "domain_rating" 0 100.
Proof. float_field @SeoMetric_validate 0%Q 100%Q. Qed.

Lemma GmbProfile_avg_rating : float_within GmbProfile_validate "avg_rating" 0 5.
Proof. float_field @GmbProfile_validate 0%Q 5%Q. Qed.

Lemma GmbProfile_reviews_count : int_at_least GmbProfile_validate "reviews_count" 0.
Proof. int_field @GmbProfile_validate. Qed.

Lemma post_invalid {A} (validate : Payload -> Validated A) handler p db :
  is_valid (validate p) = false ->
  post validate handler p db = (Raise (RequestValidationError (errors_of (validate p))), db)
  /\ response_status (fst (post validate handler p db)) = 422.
Proof.
  intros Hp. unfold post. destruct (validate p); [discriminate | split; reflexivity].
Qed.

(** C9: [domain_rating] is held to the interval from 0 to 100,
    [avg_rating] to the interval from 0 to 5, and [organic_traffic],
    [keywords_top3], [keywords_top10] and [reviews_count] to 0 and above.
    A body with one of them out of range fails validation with that field
    among the errors, and a request whose body fails validation is
    answered 422 with the database untouched; a value in range, the
    bounds 0, 100 and 5 included, is accepted whenever the rest of the
    body is. *)
Theorem numeric_fields_range_checked :
  int_at_least SeoMetric_validate "organic_traffic" 0
  /\ int_at_least SeoMetric_validate "keywords_top3" 0
  /\ int_at_least SeoMetric_validate "keywords_top10" 0
  /\ float_within SeoMetric_validate "domain_rating" 0 100
  /\ float_within GmbProfile_validate "avg_rating" 0 5
  /\ int_at_least GmbProfile_validate "reviews_count" 0
  /\ (forall p k db,
        rejects_field (SeoMetric_validate p) k ->
        post_seo p db
          = (Raise (RequestValidationError (errors_of (SeoMetric_validate p))), db)
        /\ response_status (fst (post_seo p db)) = 422)
  /\ (forall p k db,
        rejects_field (GmbProfile_validate p) k ->
        post_gmb p db
          = (Raise (RequestValidationError (errors_of (GmbProfile_validate p))), db)
        /\ response_status (fst (post_gmb p db)) = 422).
Proof.
  repeat apply conj.
  - apply SeoMetric_organic_traffic.
  - apply SeoMetric_keywords_top3.
  - apply SeoMetric_keywords_top10.
  - apply SeoMetric_domain_rating.
  - apply GmbProfile_avg_rating.
  - apply GmbProfile_reviews_count.
  - intros p k db [Hp _]. apply post_invalid, Hp.
  - intros p k db [Hp _]. apply post_invalid, Hp.
Qed.

End NumericRanges.

Lemma numeric_fields_range_checked_witness :
  accepted (@SeoMetric_validate exact (seo_body 0 100))
  /\ rejects_field (@SeoMetric_validate exact (seo_body (-1) 100)) "organic_traffic"
  /\ rejects_field (@SeoMetric_validate exact (seo_body 0 (1001 # 10))) "domain_rating"
  /\ accepted (@SeoMetric_validate exact (seo_body 0 0))
  /\ accepted (@GmbProfile_validate exact (gmb_body 5 0))
  /\ rejects_field (@GmbProfile_validate exact (gmb_body (-1 # 10) 0)) "avg_rating"
  /\ rejects_field (@GmbProfile_validate exact (gmb_body 5 (-1))) "reviews_count"
  /\ response_status (fst (@post_seo exact (seo_body (-1) 100) scenario_db)) = 422
  /\ snd (@post_seo exact (seo_body (-1) 100) scenario_db) = scenario_db.
Proof.
  destruct (@numeric_fields_range_checked exact)
    as (Htraffic & _ & _ & Hrating & Havg & Hreviews & Hseo & _).
  assert (Hneg : rejects_field (@SeoMetric_validate exact (seo_body (-1) 100))
                   "organic_traffic").
  { apply (proj1 (Htraffic (seo_body (-1) 100) (JInt (-1)) (-1)
                    eq_refl ltac:(discriminate) eq_refl)). lia. }
  refine (conj _ (conj _ (conj _ (conj _ (conj _ (conj _ (conj _ (conj _ _)))))))).
  - apply (proj2 (Hrating (seo_body 0 100) (JFloat 100) 100%Q
                    eq_refl ltac:(discriminate) eq_refl)).
    + split; discriminate.
    + vm_compute; reflexivity.
  - exact Hneg.
  - apply (proj1 (Hrating (seo_body 0 (1001 # 10)) (JFloat (1001 # 10)) (1001 # 10)%Q
                    eq_refl ltac:(discriminate) eq_refl)).
    right. reflexivity.
  - apply (proj2 (Htraffic (seo_body 0 0) (JInt 0) 0
                    eq_refl ltac:(discriminate) eq_refl)).
    + lia.
    + vm_compute; reflexivity.
  - apply (proj2 (Havg (gmb_body 5 0) (JFloat 5) 5%Q
                    eq_refl ltac:(discriminate) eq_refl)).
    + split; discriminate.
    + vm_compute; reflexivity.
  - apply (proj1 (Havg (gmb_body (-1 # 10) 0) (JFloat (-1 # 10)) (-1 # 10)%Q
                    eq_refl ltac:(discriminate) eq_refl)).
    left. reflexivity.
  - apply (proj1 (Hreviews (gmb_body 5 (-1)) (JInt (-1)) (-1)
                    eq_refl ltac:(discriminate) eq_refl)). lia.
  - exact (proj2 (Hseo _ _ scenario_db Hneg)).
  - rewrite (proj1 (Hseo _ _ scenario_db Hneg)). reflexivity.
Defined.

(** * Further properties *)

(** ** Identifiers as text *)

Lemma digit_value_upper c : Hex.digit_value (upper_char c) = Hex.digit_value c.
Proof. destruct c as [[] [] [] [] [] [] [] []]; reflexivity. Qed.

Lemma isspace_upper c : Hex.isspace (upper_char c) = Hex.isspace c.
Proof. destruct c as [[] [] [] [] [] [] [] []]; reflexivity. Qed.

Lemma digit_value_lower c : Hex.digit_value (lower_char c) = Hex.digit_value c.
Proof. destruct c as [[] [] [] [] [] [] [] []]; reflexivity. Qed.

Lemma isspace_lower c : Hex.isspace (lower_char c) = Hex.isspace c.
Proof. destruct c as [[] [] [] [] [] [] [] []]; reflexivity. Qed.

Lemma digit_not_space c n : Hex.digit_value c = Some n -> Hex.isspace c = false.
Proof. destruct c as [[] [] [] [] [] [] [] []]; vm_compute; congruence. Qed.

Lemma digit_char_value_check c :
  match Hex.digit_value c with
  | Some n => (n <? 16)%N && Ascii.eqb (Hex.digit_char n) (lower_char c)
  | None => true
  end = true.
Proof. destruct c as [[] [] [] [] [] [] [] []]; reflexivity. Qed.

Lemma digit_char_value c n :
  Hex.digit_value c = Some n -> (n < 16)%N /\ Hex.digit_char n = lower_char c.
Proof.
  intros Hc. pose proof (digit_char_value_check c) as Hcheck. rewrite Hc in Hcheck.
  apply andb_true_iff in Hcheck as [Hlt Heq].
  split; [apply N.ltb_lt, Hlt | apply Ascii.eqb_eq, Heq].
Qed.

Lemma map_chars_length f s : String.length (map_chars f s) = String.length s.
Proof. induction s as [|c s IH]; simpl; [|rewrite IH]; reflexivity. Qed.

(** Induction on strings two characters at a time. *)
Lemma string_pair_ind (P : string -> Prop) :
  P EmptyString ->
  (forall c, P (String c EmptyString)) ->
  (forall c s, P s -> P (String c s) -> forall d, P (String d (String c s))) ->
  forall s, P s.
Proof.
  intros Hnil Hone Hstep s.
  assert (Hboth : P s /\ forall c, P (String c s)).
  { induction s as [|c s [IHs IHcs]].
    - split; [exact Hnil | exact Hone].
    - split; [apply IHcs|]. intros d. apply Hstep; [exact IHs | apply IHcs]. }
  apply Hboth.
Qed.

Lemma fromhex_cons c s :
  Hex.fromhex (String c s) =
    if Hex.isspace c then Hex.fromhex s
    else match Hex.digit_value c, s with
         | Some top, String d s'' =>
             match Hex.digit_value d with
             | Some bot => cons (Hex.byte_of_nibbles top bot) <$> Hex.fromhex s''
             | None => None
             end
         | _, _ => None
         end.
Proof. reflexivity. Qed.

Lemma fromhex_map_chars f s :
  (forall c, Hex.digit_value (f c) = Hex.digit_value c) ->
  (forall c, Hex.isspace (f c) = Hex.isspace c) ->
  Hex.fromhex (map_chars f s) = Hex.fromhex s.
Proof.
  intros Hdigit Hspace.
  induction s as [| c | c s IHs IHcs d] using string_pair_ind.
  - reflexivity.
  - cbn [map_chars]. rewrite !fromhex_cons, Hspace, Hdigit. reflexivity.
  - change (map_chars f (String d (String c s)))
      with (String (f d) (map_chars f (String c s))).
    rewrite (fromhex_cons (f d)), (fromhex_cons d).
    rewrite Hspace, Hdigit, IHcs.
    cbn [map_chars]. rewrite Hdigit, IHs. reflexivity.
Qed.

Lemma ObjectId_of_str_map_chars f s :
  (forall c, Hex.digit_value (f c) = Hex.digit_value c) ->
  (forall c, Hex.isspace (f c) = Hex.isspace c) ->
  ObjectId_of_str (map_chars f s) = ObjectId_of_str s.
Proof.
  intros Hdigit Hspace. unfold ObjectId_of_str.
  rewrite map_chars_length, (fromhex_map_chars f s Hdigit Hspace). reflexivity.
Qed.

Lemma nibble_halves top bot :
  (top < 16)%N -> (bot < 16)%N ->
  (Byte.to_N (Hex.byte_of_nibbles top bot) / 16 = top
   /\ Byte.to_N (Hex.byte_of_nibbles top bot) mod 16 = bot)%N.
Proof.
  intros Ht Hb.
  assert (Hts : (top = 0 \/ top = 1 \/ top = 2 \/ top = 3 \/ top = 4 \/ top = 5
                 \/ top = 6 \/ top = 7 \/ top = 8 \/ top = 9 \/ top = 10 \/ top = 11
                 \/ top = 12 \/ top = 13 \/ top = 14 \/ top = 15)%N) by lia.
  assert (Hbs : (bot = 0 \/ bot = 1 \/ bot = 2 \/ bot = 3 \/ bot = 4 \/ bot = 5
                 \/ bot = 6 \/ bot = 7 \/ bot = 8 \/ bot = 9 \/ bot = 10 \/ bot = 11
                 \/ bot = 12 \/ bot = 13 \/ bot = 14 \/ bot = 15)%N) by lia.
  clear Ht Hb.
  repeat (destruct Hts as [->|Hts]); try subst top;
    repeat (destruct Hbs as [->|Hbs]); try subst bot; split; reflexivity.
Qed.

Lemma hexlify_pair c d top bot bs :
  Hex.digit_value c = Some top -> Hex.digit_value d = Some bot ->
  Hex.hexlify (Hex.byte_of_nibbles top bot :: bs)
    = String (lower_char c) (String (lower_char d) (Hex.hexlify bs)).
Proof.
  intros Hc Hd.
  destruct (digit_char_value c top Hc) as [Ht <-].
  destruct (digit_char_value d bot Hd) as [Hb <-].
  destruct (nibble_halves top bot Ht Hb) as [Hdiv Hmod].
  cbn [Hex.hexlify]. cbv zeta. rewrite Hdiv, Hmod. reflexivity.
Qed.

(** The digits of a string of hexadecimal digits of even length are read
    two by two, and written back in lower case. *)
Lemma fromhex_digits s :
  forall_chars is_hex_digit s = true -> Nat.Even (String.length s) ->
  exists bs,
    Hex.fromhex s = Some bs
    /\ Hex.hexlify bs = lower s
    /\ (2 * length bs = String.length s)%nat.
Proof.
  induction s as [| c | c s IHs _ d] using string_pair_ind; intros Hhex Heven.
  - exists []. repeat split.
  - destruct Heven as [k Hk]. simpl in Hk. lia.
  - cbn [forall_chars] in Hhex. apply andb_true_iff in Hhex as [Hd Hhex].
    apply andb_true_iff in Hhex as [Hc Hhex].
    destruct IHs as (bs & Hbs & Htext & Hlen); [exact Hhex | |].
    { destruct Heven as [k Hk]. simpl in Hk. exists (k - 1)%nat. lia. }
    unfold is_hex_digit in Hd, Hc.
    destruct (Hex.digit_value d) as [top|] eqn:Hdv; [|discriminate].
    destruct (Hex.digit_value c) as [bot|] eqn:Hcv; [|discriminate].
    exists (Hex.byte_of_nibbles top bot :: bs).
    rewrite fromhex_cons, (digit_not_space d top Hdv), Hdv, Hcv, Hbs.
    split; [reflexivity|]. split.
    + rewrite (hexlify_pair d c top bot bs Hdv Hcv), Htext. reflexivity.
    + simpl. lia.
Qed.

(** The characters of an accepted string are the digits, two per byte,
    and the white space between them. *)
Lemma fromhex_length s bs :
  Hex.fromhex s = Some bs ->
  String.length s = (2 * length bs + count_chars Hex.isspace s)%nat.
Proof.
  revert bs.
  induction s as [| c | c s IHs IHcs d] using string_pair_ind; intros bs.
  - intros [= <-]. reflexivity.
  - rewrite fromhex_cons. destruct (Hex.isspace c) eqn:Hsp.
    + intros [= <-]. cbn. rewrite Hsp. reflexivity.
    + destruct (Hex.digit_value c); discriminate.
  - rewrite fromhex_cons. destruct (Hex.isspace d) eqn:Hsp.
    + intros Hbs. specialize (IHcs bs Hbs).
      cbn [String.length count_chars] in *. rewrite Hsp. lia.
    + destruct (Hex.digit_value d) as [top|]; [|discriminate].
      destruct (Hex.digit_value c) as [bot|] eqn:Hcv; [|discriminate].
      destruct (Hex.fromhex s) as [bs'|] eqn:Hs; [|discriminate].
      intros [= <-]. specialize (IHs bs' eq_refl).
      cbn [String.length count_chars length]. rewrite Hsp, (digit_not_space c bot Hcv).
      lia.
Qed.

(** X1: the text form of a twelve-byte identifier is accepted by
    [to_object_id], which gives back that identifier and leaves the
    database alone. *)
Theorem to_object_id_of_text oid db :
  length (binary oid) = 12%nat -> to_object_id (str oid) db = (Return oid, db).
Proof.
  intros Hlen. unfold to_object_id. rewrite (ObjectId_of_str_str oid Hlen). reflexivity.
Qed.

Lemma to_object_id_of_text_witness :
  length (binary (fresh_oid scenario_db)) = 12%nat
  /\ to_object_id (str (fresh_oid scenario_db)) scenario_db
       = (Return (fresh_oid scenario_db), scenario_db).
Proof.
  split; [reflexivity|]. apply (to_object_id_of_text (fresh_oid scenario_db) scenario_db).
  reflexivity.
Defined.

(** X3: a string of twenty-four hexadecimal digits is accepted by
    [to_object_id]; the identifier has twelve bytes and its text form is
    the string in lower case. *)
Theorem to_object_id_hex_text s db :
  String.length s = 24%nat ->
  forall_chars is_hex_digit s = true ->
  exists oid,
    to_object_id s db = (Return oid, db)
    /\ length (binary oid) = 12%nat
    /\ str oid = lower s.
Proof.
  intros Hlen Hhex.
  destruct (fromhex_digits s Hhex) as (bs & Hbs & Htext & Hbytes).
  { exists 12%nat. rewrite Hlen. reflexivity. }
  exists {| binary := bs |}. unfold to_object_id, ObjectId_of_str.
  rewrite Hlen, Hbs. split; [reflexivity|]. split; [simpl; lia | exact Htext].
Qed.

Lemma to_object_id_hex_text_witness :
  String.length "00000000000000000000000A" = 24%nat
  /\ forall_chars is_hex_digit "00000000000000000000000A" = true
  /\ exists oid,
      to_object_id "00000000000000000000000A" scenario_db = (Return oid, scenario_db)
      /\ length (binary oid) = 12%nat
      /\ str oid = lower "00000000000000000000000A".
Proof.
  split; [reflexivity|]. split; [reflexivity|].
  apply (to_object_id_hex_text "00000000000000000000000A" scenario_db); reflexivity.
Defined.

(** X4: when [to_object_id] accepts a string, the string has twenty-four
    characters, each one a digit of the identifier (two per byte) or
    white space between the digit pairs, and the database is left alone.
    So the identifier has at most twelve bytes, and twelve exactly when
    the string holds no white space. *)
Theorem to_object_id_accepted_shape s db oid db' :
  to_object_id s db = (Return oid, db') ->
  db' = db
  /\ String.length s = 24%nat
  /\ (2 * length (binary oid) + count_chars Hex.isspace s = 24)%nat.
Proof.
  unfold to_object_id, ObjectId_of_str.
  destruct (String.length s =? 24)%nat eqn:Hlen; [|discriminate].
  apply Nat.eqb_eq in Hlen.
  destruct (Hex.fromhex s) as [bs|] eqn:Hbs; [|discriminate].
  intros [= <- <-]. split; [reflexivity|]. split; [exact Hlen|].
  rewrite <- Hlen. symmetry. apply (fromhex_length s bs Hbs).
Qed.

Lemma to_object_id_accepted_shape_witness :
  to_object_id "0a 0b 0c 0d 0e 0f 01 02 " scenario_db
    = (Return {| binary := [Byte.x0a; Byte.x0b; Byte.x0c; Byte.x0d;
                            Byte.x0e; Byte.x0f; Byte.x01; Byte.x02] |}, scenario_db)
  /\ scenario_db = scenario_db
  /\ String.length "0a 0b 0c 0d 0e 0f 01 02 " = 24%nat
  /\ (2 * 8 + count_chars Hex.isspace "0a 0b 0c 0d 0e 0f 01 02 " = 24)%nat.
Proof.
  assert (Hrun : to_object_id "0a 0b 0c 0d 0e 0f 01 02 " scenario_db
                 = (Return {| binary := [Byte.x0a; Byte.x0b; Byte.x0c; Byte.x0d;
                                         Byte.x0e; Byte.x0f; Byte.x01; Byte.x02] |},
                    scenario_db)) by reflexivity.
  split; [exact Hrun|].
  exact (to_object_id_accepted_shape _ _ _ _ Hrun).
Defined.

(** ** Reading: what is returned and what is left alone *)

Lemma get_client_detail_found db s cid c :
  ObjectId_of_str s = Some cid ->
  List.find (matches [IdEq cid]) (coll db "client") = Some c ->
  exists db',
    get_client_detail s db =
      (Return {| client := str_id c;
                 websites := List.map str_id (List.filter (refers_to s) (coll db "website"));
                 seo := List.map str_id
                          (sort "date" (-1) (List.filter (refers_to s) (coll db "seometric")));
                 gmb := List.map str_id
                          (List.filter (refers_to s) (coll db "gmbprofile")) |}, db')
    /\ collections db' = collections db
    /\ next_oid db' = next_oid db.
Proof.
  intros Hs Hc. unfold get_client_detail, to_object_id. rewrite Hs. run_handler.
  rewrite Hc. simpl_coll.
  rewrite !(filter_ext_bool _ _ _ (matches_client_id s)).
  eexists. split; [reflexivity|]. split; reflexivity.
Qed.

Lemma get_client_detail_returns db s r db' :
  get_client_detail s db = (Return r, db') ->
  exists cid c,
    ObjectId_of_str s = Some cid
    /\ List.find (matches [IdEq cid]) (coll db "client") = Some c
    /\ r = {| client := str_id c;
              websites := List.map str_id (List.filter (refers_to s) (coll db "website"));
              seo := List.map str_id
                       (sort "date" (-1) (List.filter (refers_to s) (coll db "seometric")));
              gmb := List.map str_id
                       (List.filter (refers_to s) (coll db "gmbprofile")) |}.
Proof.
  intros Hrun.
  destruct (ObjectId_of_str s) as [cid|] eqn:Hs.
  - destruct (List.find (matches [IdEq cid]) (coll db "client")) as [c|] eqn:Hc.
    + destruct (get_client_detail_found db s cid c Hs Hc) as (db'' & Hfound & _).
      rewrite Hfound in Hrun. injection Hrun as <- _. exists cid, c.
      split; [reflexivity|]. split; [exact Hc | reflexivity].
    + rewrite (get_client_detail_unknown db s cid Hs) in Hrun; [discriminate|].
      intros d Hd Hid.
      pose proof (find_none _ _ Hc d Hd) as Hm.
      rewrite matches_single in Hm. cbn [cond_matches] in Hm.
      apply bool_decide_eq_false in Hm. exact (Hm Hid).
  - rewrite (get_client_detail_malformed db s Hs) in Hrun. discriminate.
Qed.

Lemma str_id_field d k : k <> "_id" -> str_id d !! k = fields d !! k.
Proof. intros Hk. unfold str_id. apply lookup_insert_ne. congruence. Qed.

Lemma refers_to_field s d :
  refers_to s d = true -> str_id d !! "client_id" = Some (VStr s).
Proof.
  intros Hd. rewrite str_id_field by discriminate.
  apply bool_decide_eq_true in Hd. exact Hd.
Qed.

Lemma in_map_filter_refers s docs x :
  In x (List.map str_id (List.filter (refers_to s) docs)) ->
  x !! "client_id" = Some (VStr s).
Proof.
  intros Hx. apply in_map_iff in Hx as (d & <- & Hd).
  apply filter_In in Hd as [_ Hd]. apply refers_to_field, Hd.
Qed.

Lemma get_client_detail_leaves_store s db :
  collections (exec (get_client_detail s) db) = collections db
  /\ next_oid (exec (get_client_detail s) db) = next_oid db.
Proof.
  unfold exec. destruct (ObjectId_of_str s) as [cid|] eqn:Hs.
  - destruct (List.find (matches [IdEq cid]) (coll db "client")) as [c|] eqn:Hc.
    + destruct (get_client_detail_found db s cid c Hs Hc) as (db' & Hrun & Hcolls & Hnext).
      rewrite Hrun. split; assumption.
    + unfold get_client_detail, to_object_id. rewrite Hs. run_handler. rewrite Hc.
      split; reflexivity.
  - rewrite (get_client_detail_malformed db s Hs). split; reflexivity.
Qed.

(** X6: when [get_client_detail] answers, the string it was given is a
    well-formed identifier, the client returned carries the text form of
    that identifier as its [_id], and every website, SEO snapshot and
    business profile returned carries the given string, letter for
    letter, as its [client_id]. *)
Theorem get_client_detail_sound s db r db' :
  get_client_detail s db = (Return r, db') ->
  exists cid,
    ObjectId_of_str s = Some cid
    /\ client r !! "_id" = Some (VStr (str cid))
    /\ (forall x, In x (websites r ++ seo r ++ gmb r) ->
          x !! "client_id" = Some (VStr s)).
Proof.
  intros Hrun. destruct (get_client_detail_returns db s r db' Hrun)
    as (cid & c & Hs & Hc & ->).
  exists cid. split; [exact Hs|]. split.
  - apply find_some in Hc as [_ Hc]. rewrite matches_single in Hc.
    apply bool_decide_eq_true in Hc. rewrite <- Hc. apply lookup_insert_eq.
  - cbn [websites seo gmb]. intros x Hx.
    apply in_app_or in Hx as [Hx|Hx]; [|apply in_app_or in Hx as [Hx|Hx]].
    + apply (in_map_filter_refers s _ x Hx).
    + apply (in_map_filter_refers s (coll db "seometric") x).
      eapply Permutation_in; [|exact Hx].
      apply Permutation_map, sort_perm.
    + apply (in_map_filter_refers s _ x Hx).
Qed.

Lemma get_client_detail_sound_witness :
  let upper_id := "00000000000000000000000A" in
  (exists r, get_client_detail upper_id scenario_db
             = (Return r, exec (get_client_detail upper_id) scenario_db)
             /\ websites r = [] /\ seo r = [] /\ gmb r = [])
  /\ exists cid r,
      get_client_detail upper_id scenario_db
        = (Return r, exec (get_client_detail upper_id) scenario_db)
      /\ ObjectId_of_str upper_id = Some cid
      /\ client r !! "_id" = Some (VStr (str cid))
      /\ (forall x, In x (websites r ++ seo r ++ gmb r) ->
            x !! "client_id" = Some (VStr upper_id)).
Proof.
  intros upper_id.
  destruct (get_client_detail upper_id scenario_db) as [out db'] eqn:Hrun.
  assert (Hout : exists r, out = Return r /\ websites r = [] /\ seo r = [] /\ gmb r = []).
  { assert (Hfst : out = fst (get_client_detail upper_id scenario_db))
      by (rewrite Hrun; reflexivity).
    rewrite Hfst. vm_compute. eexists. repeat split. }
  destruct Hout as (r & -> & Hw & Hs & Hg).
  assert (Hdb : exec (get_client_detail upper_id) scenario_db = db')
    by (unfold exec; rewrite Hrun; reflexivity).
  rewrite Hdb. split.
  - exists r. repeat split; assumption.
  - destruct (get_client_detail_sound upper_id scenario_db r db' Hrun)
      as (cid & Hcid & Hclient & Hdeps).
    exists cid, r. repeat split; assumption.
Defined.

Lemma StronglySorted_lookup_lt {A} (R : A -> A -> Prop) (l : list A) i j a b :
  StronglySorted R l -> (i < j)%nat -> l !! i = Some a -> l !! j = Some b -> R a b.
Proof.
  intros Hl. revert i j. induction Hl as [|x l Hl IH Hx]; intros i j Hij Hi Hj.
  - discriminate.
  - destruct j as [|j]; [lia|]. destruct i as [|i]; simpl in Hi, Hj.
    + injection Hi as <-. rewrite Forall_forall in Hx. apply Hx.
      eapply list_elem_of_lookup_2. exact Hj.
    + apply (IH i j); [lia | assumption | assumption].
Qed.

Lemma bson_leb_null v : bson_leb v VNull = true -> v = VNull.
Proof. destruct v; simpl; intros Hv; try discriminate; reflexivity. Qed.

(** X7: in the SEO list [get_client_detail] returns, a snapshot without
    a date (absent or null) is followed only by snapshots without a date:
    the undated ones come last. *)
Theorem undated_snapshots_come_last s db r db' i j a b :
  get_client_detail s db = (Return r, db') ->
  (i < j)%nat ->
  seo r !! i = Some a ->
  seo r !! j = Some b ->
  date_of a = VNull ->
  date_of b = VNull.
Proof.
  intros Hrun Hij Ha Hb Hnull.
  destruct (get_client_detail_returns db s r db' Hrun) as (cid & c & _ & _ & ->).
  cbn [seo] in Ha, Hb.
  pose proof (newest_first_sort (List.filter (refers_to s) (coll db "seometric"))) as Hsorted.
  pose proof (StronglySorted_lookup_lt _ _ i j a b Hsorted Hij Ha Hb) as Hab.
  cbv beta in Hab. rewrite Hnull in Hab. apply bson_leb_null, Hab.
Qed.

Lemma undated_snapshots_come_last_witness :
  exists r db' a b,
    get_client_detail acme_id undated_db = (Return r, db')
    /\ List.map date_of (seo r)
         = [VStr "2024-05-01"; VStr "2024-03-01"; VStr "2024-02-01"; VStr "2024-01-01";
            VNull; VNull]
    /\ seo r !! 4%nat = Some a
    /\ seo r !! 5%nat = Some b
    /\ date_of a = VNull
    /\ date_of b = VNull.
Proof.
  assert (Hdates : (fun r => List.map date_of (seo r))
                     <$> body (fst (get_client_detail acme_id undated_db))
                   = Some [VStr "2024-05-01"; VStr "2024-03-01"; VStr "2024-02-01";
                           VStr "2024-01-01"; VNull; VNull])
    by (vm_compute; reflexivity).
  destruct (get_client_detail acme_id undated_db) as [[r|e] db'] eqn:Hrun;
    [|discriminate Hdates].
  cbn [fst body fmap option_fmap option_map] in Hdates. injection Hdates as Hdates.
  destruct (seo r) as [|x0 [|x1 [|x2 [|x3 [|a [|b [|]]]]]]] eqn:Hseo; try discriminate Hdates.
  injection Hdates as H0 H1 H2 H3 Ha Hb.
  exists r, db', a, b.
  split; [reflexivity|].
  split; [rewrite Hseo; cbn [List.map]; rewrite H0, H1, H2, H3, Ha, Hb; reflexivity|].
  rewrite Hseo. split; [reflexivity|]. split; [reflexivity|]. split; [exact Ha|].
  apply (undated_snapshots_come_last acme_id undated_db r db' 4 5 a b Hrun);
    [lia | rewrite Hseo; reflexivity | rewrite Hseo; reflexivity | exact Ha].
Defined.

(** X8: whichever of two spellings of one identifier is used,
    [get_client_detail] finds the same client or fails alike. *)
Theorem client_found_under_any_spelling s1 s2 db :
  ObjectId_of_str s1 = ObjectId_of_str s2 ->
  client <$> body (fst (get_client_detail s1 db))
    = client <$> body (fst (get_client_detail s2 db)).
Proof.
  intros Hsame. destruct (ObjectId_of_str s2) as [cid|] eqn:Hs2.
  - destruct (List.find (matches [IdEq cid]) (coll db "client")) as [c|] eqn:Hc.
    + destruct (get_client_detail_found db s1 cid c Hsame Hc) as (db1 & -> & _).
      destruct (get_client_detail_found db s2 cid c Hs2 Hc) as (db2 & -> & _).
      reflexivity.
    + assert (Hno : forall d, In d (coll db "client") -> _id d <> cid).
      { intros d Hd Hid. pose proof (find_none _ _ Hc d Hd) as Hm.
        rewrite matches_single in Hm. apply bool_decide_eq_false in Hm. exact (Hm Hid). }
      rewrite (get_client_detail_unknown db s1 cid Hsame Hno).
      rewrite (get_client_detail_unknown db s2 cid Hs2 Hno). reflexivity.
  - rewrite (get_client_detail_malformed db s1 Hsame).
    rewrite (get_client_detail_malformed db s2 Hs2). reflexivity.
Qed.

Lemma client_found_under_any_spelling_witness :
  ObjectId_of_str "00000000000000000000000A" = ObjectId_of_str acme_id
  /\ client <$> body (fst (get_client_detail "00000000000000000000000A" scenario_db))
     = client <$> body (fst (get_client_detail acme_id scenario_db))
  /\ (fun r => length (websites r))
       <$> body (fst (get_client_detail "00000000000000000000000A" scenario_db)) = Some 0%nat
  /\ (fun r => length (websites r))
       <$> body (fst (get_client_detail acme_id scenario_db)) = Some 2%nat.
Proof.
  split; [reflexivity|]. split.
  - apply (client_found_under_any_spelling "00000000000000000000000A" acme_id scenario_db).
    reflexivity.
  - split; vm_compute; reflexivity.
Defined.

(** ** Deleting: what is gone afterwards and what is kept *)

Lemma remove_first_unique cid docs d :
  unique_ids docs ->
  In d (remove_first (matches [IdEq cid]) docs) -> _id d <> cid.
Proof.
  unfold unique_ids. induction docs as [|x docs IH]; cbn [remove_first List.map].
  - intros _ [].
  - intros Hnodup Hd. apply NoDup_cons in Hnodup as [Hx Hnodup].
    rewrite matches_single in Hd. cbn [cond_matches] in Hd.
    destruct (bool_decide (_id x = cid)) eqn:Hmatch.
    + apply bool_decide_eq_true in Hmatch. subst cid.
      intros Hid. apply Hx. rewrite <- Hid.
      apply list_elem_of_In, in_map, Hd.
    + apply bool_decide_eq_false in Hmatch.
      destruct Hd as [<-|Hd]; [exact Hmatch | apply IH; assumption].
Qed.

Lemma remove_first_keeps {A} (p : A -> bool) l x :
  In x l -> p x = false -> In x (remove_first p l).
Proof.
  induction l as [|y l IH]; cbn [remove_first]; [intros []|].
  intros [->|Hx] Hp.
  - rewrite Hp. left. reflexivity.
  - destruct (p y); [exact Hx | right; apply IH; assumption].
Qed.

Lemma filter_twice {A} (p : A -> bool) l :
  List.filter p (List.filter p l) = List.filter p l.
Proof.
  induction l as [|x l IH]; cbn [List.filter]; [reflexivity|].
  destruct (p x) eqn:Hp; [cbn [List.filter]; rewrite Hp, IH|]; [reflexivity | exact IH].
Qed.

(** X9: once [delete_client] has run on a well-formed identifier that
    at most one client carries, no client has it any more: reading it
    fails with 404, and deleting it again fails with 404 and changes no
    collection. *)
Theorem delete_client_then_gone s cid db :
  ObjectId_of_str s = Some cid ->
  unique_ids (coll db "client") ->
  (forall d, In d (coll (exec (delete_client s) db) "client") -> _id d <> cid)
  /\ (exists db2,
        get_client_detail s (exec (delete_client s) db)
          = (Raise (HTTPException 404 "Client not found"), db2))
  /\ (exists db2,
        delete_client s (exec (delete_client s) db)
          = (Raise (HTTPException 404 "Client not found"), db2)
        /\ forall name, coll db2 name = coll (exec (delete_client s) db) name).
Proof.
  intros Hs Hunique. unfold exec.
  destruct (delete_client_run db s cid Hs) as (db1 & Hrun & Hclient & Hdeps & _).
  rewrite Hrun. cbn [snd].
  assert (Hgone : forall d, In d (coll db1 "client") -> _id d <> cid).
  { intros d Hd. rewrite Hclient in Hd. apply (remove_first_unique cid _ d Hunique Hd). }
  split; [exact Hgone|]. split.
  - eexists. apply (get_client_detail_unknown db1 s cid Hs Hgone).
  - destruct (delete_client_run db1 s cid Hs) as (db2 & Hrun2 & Hclient2 & Hdeps2 & Hrest2 & _).
    pose proof (existsb_no_client cid _ Hgone) as Hno. rewrite Hno in Hrun2.
    exists db2. split; [exact Hrun2|]. intros name.
    destruct (In_dec string_dec name ("client" :: dependent_collections)) as [Hin|Hout].
    + destruct Hin as [<-|Hin].
      * rewrite Hclient2. apply remove_first_no_match, Hno.
      * rewrite (Hdeps2 name Hin), (Hdeps name Hin). apply filter_twice.
    + apply Hrest2, Hout.
Qed.

Lemma delete_client_then_gone_witness :
  ObjectId_of_str acme_id = Some (fresh_oid empty_db)
  /\ unique_ids (coll scenario_db "client")
  /\ (exists db2,
        get_client_detail acme_id (exec (delete_client acme_id) scenario_db)
          = (Raise (HTTPException 404 "Client not found"), db2))
  /\ (exists db2,
        delete_client acme_id (exec (delete_client acme_id) scenario_db)
          = (Raise (HTTPException 404 "Client not found"), db2)
        /\ forall name,
             coll db2 name = coll (exec (delete_client acme_id) scenario_db) name).
Proof.
  assert (Hunique : unique_ids (coll scenario_db "client")).
  { unfold unique_ids.
    assert (Hids : List.map _id (coll scenario_db "client") = [fresh_oid empty_db])
      by (vm_compute; reflexivity).
    rewrite Hids. apply NoDup_singleton. }
  split; [reflexivity|]. split; [exact Hunique|].
  exact (proj2 (delete_client_then_gone acme_id (fresh_oid empty_db) scenario_db
                  eq_refl Hunique)).
Defined.

(** ** Referential integrity *)

Lemma referentially_intact_deps db db' :
  (forall c, In c (coll db "client") -> In c (coll db' "client")) ->
  (forall name d, In name dependent_collections -> In d (coll db' name) ->
     In d (coll db name)
     \/ exists c, In c (coll db' "client")
                  /\ fields d !! "client_id" = Some (VStr (str (_id c)))) ->
  referentially_intact db -> referentially_intact db'.
Proof.
  intros Hclients Hdeps Hri name d Hname Hd.
  destruct (Hdeps name d Hname Hd) as [Hold|Hnew]; [|exact Hnew].
  destruct (Hri name d Hname Hold) as (c & Hc & Hfield).
  exists c. split; [apply Hclients, Hc | exact Hfield].
Qed.

Lemma delete_client_keeps_integrity s db :
  canonical s -> referentially_intact db ->
  referentially_intact (exec (delete_client s) db).
Proof.
  intros Hcanon Hri. unfold exec.
  destruct (ObjectId_of_str s) as [cid|] eqn:Hs.
  - destruct (delete_client_run db s cid Hs) as (db1 & Hrun & Hclient & Hdeps & _).
    rewrite Hrun. cbn [snd]. intros name d Hname Hd.
    rewrite (Hdeps name Hname) in Hd. apply filter_In in Hd as [Hd Hother].
    destruct (Hri name d Hname Hd) as (c & Hc & Hfield).
    exists c. split; [|exact Hfield].
    rewrite Hclient. apply remove_first_keeps; [exact Hc|].
    rewrite matches_single. apply bool_decide_eq_false. intros Hid.
    apply negb_true_iff in Hother. unfold refers_to in Hother.
    apply bool_decide_eq_false in Hother. apply Hother.
    rewrite Hfield, Hid, (Hcanon cid Hs). reflexivity.
  - rewrite (delete_client_malformed db s Hs). exact Hri.
Qed.

Lemma create_website_run w db :
  create_website w db
    = insert_for_client "website" (Website.client_id w) (model_dump w) db.
Proof.
  unfold create_website, insert_for_client, to_object_id, create_document.
  destruct (ObjectId_of_str (Website.client_id w)); run_handler; [|reflexivity].
  destruct (List.find _ _); reflexivity.
Qed.

Lemma create_seo_metric_run m db :
  create_seo_metric m db
    = insert_for_client "seometric" (SeoMetric.client_id m) (model_dump m) db.
Proof.
  unfold create_seo_metric, insert_for_client, to_object_id, create_document.
  destruct (ObjectId_of_str (SeoMetric.client_id m)); run_handler; [|reflexivity].
  destruct (List.find _ _); reflexivity.
Qed.

Lemma create_gmb_profile_run g db :
  create_gmb_profile g db
    = insert_for_client "gmbprofile" (GmbProfile.client_id g) (model_dump g) db.
Proof.
  unfold create_gmb_profile, insert_for_client, to_object_id, create_document.
  destruct (ObjectId_of_str (GmbProfile.client_id g)); run_handler; [|reflexivity].
  destruct (List.find _ _); reflexivity.
Qed.

Lemma client_is_found cid docs :
  (exists c, In c docs /\ _id c = cid) ->
  exists c, List.find (matches [IdEq cid]) docs = Some c.
Proof.
  intros Hex. apply existsb_client in Hex.
  destruct (List.find (matches [IdEq cid]) docs) as [c|] eqn:Hfind; [exists c; reflexivity|].
  apply find_none_iff_existsb in Hfind. congruence.
Qed.

Lemma insert_for_client_appended name s doc db cid :
  name <> "client" ->
  ObjectId_of_str s = Some cid ->
  (exists c, In c (coll db "client") /\ _id c = cid) ->
  appended db name doc (insert_for_client name s doc db).
Proof.
  intros Hname Hs Hex. destruct (client_is_found cid _ Hex) as [c Hc].
  unfold insert_for_client, appended. rewrite Hs, Hc. cbn [fst snd].
  split; [reflexivity|]. split.
  - rewrite coll_log, coll_take_oid, coll_set_coll_eq. reflexivity.
  - intros name' Hne. rewrite coll_log, coll_take_oid, coll_set_coll_ne by congruence.
    apply coll_log.
Qed.

(** X10: a website, SEO snapshot or business profile whose [client_id]
    is a well-formed identifier that some client carries is created: the
    answer is the text of the next identifier, one document with the
    record's fields is put last in the record's collection and no other
    collection changes.  The [client_id] is stored as it was sent. *)
Theorem create_dependent_for_known_client db s cid w m g :
  Website.client_id w = s ->
  SeoMetric.client_id m = s ->
  GmbProfile.client_id g = s ->
  ObjectId_of_str s = Some cid ->
  (exists c, In c (coll db "client") /\ _id c = cid) ->
  appended db "website" (model_dump w) (create_website w db)
  /\ appended db "seometric" (model_dump m) (create_seo_metric m db)
  /\ appended db "gmbprofile" (model_dump g) (create_gmb_profile g db)
  /\ model_dump w !! "client_id" = Some (VStr s)
  /\ model_dump m !! "client_id" = Some (VStr s)
  /\ model_dump g !! "client_id" = Some (VStr s).
Proof.
  intros Hw Hm Hg Hs Hex.
  rewrite create_website_run, create_seo_metric_run, create_gmb_profile_run, Hw, Hm, Hg.
  split; [apply (insert_for_client_appended _ s _ db cid); [discriminate | assumption..]|].
  split; [apply (insert_for_client_appended _ s _ db cid); [discriminate | assumption..]|].
  split; [apply (insert_for_client_appended _ s _ db cid); [discriminate | assumption..]|].
  rewrite <- Hw at 1. rewrite <- Hm at 1. rewrite <- Hg. repeat split; reflexivity.
Qed.

Lemma create_dependent_for_known_client_witness :
  ObjectId_of_str "00000000000000000000000A" = Some (fresh_oid empty_db)
  /\ (exists c, In c (coll client_only_db "client") /\ _id c = fresh_oid empty_db)
  /\ appended client_only_db "website"
       (model_dump (site "00000000000000000000000A" "https://acme.example/"))
       (create_website (site "00000000000000000000000A" "https://acme.example/")
          client_only_db)
  /\ model_dump (site "00000000000000000000000A" "https://acme.example/") !! "client_id"
       = Some (VStr "00000000000000000000000A").
Proof.
  assert (Hex : exists c, In c (coll client_only_db "client") /\ _id c = fresh_oid empty_db).
  { exists {| _id := fresh_oid empty_db; fields := model_dump acme |}.
    split; [vm_compute; left; reflexivity | reflexivity]. }
  split; [reflexivity|]. split; [exact Hex|].
  destruct (create_dependent_for_known_client client_only_db "00000000000000000000000A"
              (fresh_oid empty_db)
              (site "00000000000000000000000A" "https://acme.example/")
              (snapshot "00000000000000000000000A" "2024-01-01")
              (listing "00000000000000000000000A")
              eq_refl eq_refl eq_refl eq_refl Hex) as (Hw & _ & _ & Hfield & _).
  split; [exact Hw | exact Hfield].
Defined.

Lemma create_client_run c db :
  appended db "client" (model_dump c) (create_client c db).
Proof.
  unfold appended, create_client, create_document. run_handler. cbn [fst snd].
  split; [reflexivity|]. split.
  - simpl_coll. reflexivity.
  - intros name' Hne. rewrite coll_log, coll_take_oid, coll_set_coll_ne by congruence.
    reflexivity.
Qed.

Lemma insert_for_client_keeps_integrity name s doc db :
  In name dependent_collections ->
  doc !! "client_id" = Some (VStr s) ->
  canonical s ->
  referentially_intact db ->
  referentially_intact (snd (insert_for_client name s doc db)).
Proof.
  intros Hname Hdoc Hcanon Hri. unfold insert_for_client.
  destruct (ObjectId_of_str s) as [cid|] eqn:Hs; [|exact Hri].
  destruct (List.find (matches [IdEq cid]) (coll db "client")) as [c|] eqn:Hc; [|exact Hri].
  cbn [snd]. apply find_some in Hc as [Hc Hid].
  rewrite matches_single in Hid. apply bool_decide_eq_true in Hid.
  assert (Hne : name <> "client")
    by (destruct Hname as [<-|[<-|[<-|[]]]]; discriminate).
  apply (referentially_intact_deps db); [| |exact Hri].
  - intros c' Hc'. rewrite coll_log, coll_take_oid, coll_set_coll_ne by exact Hne.
    exact Hc'.
  - intros name' d Hname' Hd. rewrite coll_log, coll_take_oid in Hd.
    destruct (string_dec name name') as [<-|Hother].
    + rewrite coll_set_coll_eq in Hd. apply in_app_or in Hd as [Hd|[<-|[]]].
      * left. exact Hd.
      * right. exists c. split.
        -- rewrite coll_log, coll_take_oid, coll_set_coll_ne by exact Hne. exact Hc.
        -- cbn [fields]. rewrite Hdoc, Hid, (Hcanon cid Hs). reflexivity.
    + rewrite coll_set_coll_ne in Hd by exact Hother. left. exact Hd.
Qed.

(** X11: referential integrity (every dependent's [client_id] is the
    text form of a stored client's identifier) is kept by every handler,
    provided the identifiers sent are in that text form: by
    [create_client], by the three handlers that create a dependent, by
    [delete_client], and by the two handlers that read. *)
Theorem handlers_keep_integrity db :
  referentially_intact db ->
  (forall c, referentially_intact (exec (create_client c) db))
  /\ (forall w, canonical (Website.client_id w) ->
        referentially_intact (exec (create_website w) db))
  /\ (forall m, canonical (SeoMetric.client_id m) ->
        referentially_intact (exec (create_seo_metric m) db))
  /\ (forall g, canonical (GmbProfile.client_id g) ->
        referentially_intact (exec (create_gmb_profile g) db))
  /\ (forall s, canonical s -> referentially_intact (exec (delete_client s) db))
  /\ (forall s, referentially_intact (exec (get_client_detail s) db))
  /\ referentially_intact (exec list_clients db).
Proof.
  intros Hri. repeat apply conj.
  - intros c. destruct (create_client_run c db) as (_ & Hclient & Hrest).
    unfold exec. apply (referentially_intact_deps db); [| |exact Hri].
    + intros c' Hc'. rewrite Hclient. apply in_or_app. left. exact Hc'.
    + intros name d Hname Hd. left. rewrite Hrest in Hd; [exact Hd|].
      destruct Hname as [<-|[<-|[<-|[]]]]; discriminate.
  - intros w Hw. unfold exec. rewrite create_website_run.
    apply insert_for_client_keeps_integrity;
      [simpl; tauto | reflexivity | exact Hw | exact Hri].
  - intros m Hm. unfold exec. rewrite create_seo_metric_run.
    apply insert_for_client_keeps_integrity;
      [simpl; tauto | reflexivity | exact Hm | exact Hri].
  - intros g Hg. unfold exec. rewrite create_gmb_profile_run.
    apply insert_for_client_keeps_integrity;
      [simpl; tauto | reflexivity | exact Hg | exact Hri].
  - intros s Hs. apply delete_client_keeps_integrity; assumption.
  - intros s. destruct (get_client_detail_leaves_store s db) as [Hcolls _].
    intros name d Hname Hd. unfold coll in *. rewrite Hcolls in *.
    apply (Hri name d Hname Hd).
  - exact Hri.
Qed.

Lemma handlers_keep_integrity_witness :
  referentially_intact client_only_db
  /\ canonical acme_id
  /\ referentially_intact
       (exec (create_website (site acme_id "https://acme.example/")) client_only_db)
  /\ referentially_intact (exec (delete_client acme_id) client_only_db).
Proof.
  assert (Hri : referentially_intact client_only_db).
  { intros name d Hname Hd.
    destruct Hname as [<-|[<-|[<-|[]]]]; vm_compute in Hd; destruct Hd. }
  assert (Hcanon : canonical acme_id).
  { intros cid Hcid. vm_compute in Hcid. injection Hcid as <-. reflexivity. }
  destruct (handlers_keep_integrity client_only_db Hri)
    as (_ & Hweb & _ & _ & Hdel & _).
  split; [exact Hri|]. split; [exact Hcanon|].
  split; [apply (Hweb (site acme_id "https://acme.example/")), Hcanon
         | apply (Hdel acme_id), Hcanon].
Defined.

(** ** One request after another *)

Lemma fresh_oid_accepted db : ObjectId_of_str (str (fresh_oid db)) = Some (fresh_oid db).
Proof. apply ObjectId_of_str_str. reflexivity. Qed.

Lemma new_client_is_stored c db :
  exists d, In d (coll (exec (create_client c) db) "client") /\ _id d = fresh_oid db.
Proof.
  destruct (create_client_run c db) as (_ & Hclient & _). unfold exec.
  exists {| _id := fresh_oid db; fields := model_dump c |}.
  split; [|reflexivity]. rewrite Hclient. apply in_or_app. right. left. reflexivity.
Qed.

(** X12: the identifier [create_client] answers with can be used at once:
    a website, SEO snapshot or business profile sent with it as
    [client_id] is created, [get_client_detail] on it answers, and
    [delete_client] on it answers [{"ok": true}]. *)
Theorem created_client_id_is_usable c db :
  exists id,
    fst (create_client c db) = Return {["id" := VStr id]}
    /\ (forall w, Website.client_id w = id ->
          exists out db2,
            create_website w (exec (create_client c) db) = (Return out, db2))
    /\ (forall m, SeoMetric.client_id m = id ->
          exists out db2,
            create_seo_metric m (exec (create_client c) db) = (Return out, db2))
    /\ (forall g, GmbProfile.client_id g = id ->
          exists out db2,
            create_gmb_profile g (exec (create_client c) db) = (Return out, db2))
    /\ (exists r db2,
          get_client_detail id (exec (create_client c) db) = (Return r, db2))
    /\ (exists db2,
          delete_client id (exec (create_client c) db)
            = (Return {["ok" := VBool true]}, db2)).
Proof.
  exists (str (fresh_oid db)).
  pose proof (fresh_oid_accepted db) as Hs.
  pose proof (new_client_is_stored c db) as Hex.
  destruct (client_is_found _ _ Hex) as [c' Hc'].
  split; [apply (create_client_run c db)|].
  repeat apply conj.
  - intros w Hw. rewrite create_website_run. unfold insert_for_client.
    rewrite Hw, Hs, Hc'. do 2 eexists. reflexivity.
  - intros m Hm. rewrite create_seo_metric_run. unfold insert_for_client.
    rewrite Hm, Hs, Hc'. do 2 eexists. reflexivity.
  - intros g Hg. rewrite create_gmb_profile_run. unfold insert_for_client.
    rewrite Hg, Hs, Hc'. do 2 eexists. reflexivity.
  - destruct (get_client_detail_found _ _ _ c' Hs Hc') as (db2 & Hrun & _).
    do 2 eexists. exact Hrun.
  - destruct (delete_client_run (exec (create_client c) db) _ _ Hs) as (db2 & Hrun & _).
    apply existsb_client in Hex. rewrite Hex in Hrun. exists db2. exact Hrun.
Qed.

Lemma created_client_id_is_usable_witness :
  exists id,
    fst (create_client acme empty_db) = Return {["id" := VStr id]}
    /\ Website.client_id (site acme_id "https://acme.example/") = id
    /\ (exists out db2,
          create_website (site acme_id "https://acme.example/") client_only_db
            = (Return out, db2)).
Proof.
  destruct (created_client_id_is_usable acme empty_db) as (id & Hid & Hweb & _).
  assert (Hacme : id = acme_id).
  { assert (Hfst : fst (create_client acme empty_db) = Return {["id" := VStr acme_id]})
      by (vm_compute; reflexivity).
    rewrite Hfst in Hid.
    pose proof (f_equal (fun out : Outcome Dict => body out ≫= lookup "id") Hid) as Hk.
    cbn [body mbind option_bind] in Hk.
    rewrite !lookup_singleton_eq in Hk. congruence. }
  exists id. split; [exact Hid|]. split; [symmetry; exact Hacme|].
  apply (Hweb (site acme_id "https://acme.example/")). symmetry. exact Hacme.
Defined.

Lemma filter_all {A} (l : list A) : List.filter (fun _ => true) l = l.
Proof. induction l as [|x l IH]; simpl; [|rewrite IH]; reflexivity. Qed.

Lemma list_clients_run db :
  list_clients db
    = (Return (List.map str_id (coll db "client")), log (OpFind "client" []) db).
Proof.
  unfold list_clients, get_documents. run_handler.
  rewrite (filter_ext_bool (matches []) (fun _ => true)) by reflexivity.
  rewrite filter_all. reflexivity.
Qed.

(** X13: [list_clients] answers with one record per stored client, in
    the store's order, each with its identifier as text; after
    [create_client] it answers with the records it answered with before,
    followed by the new client: the fields sent and the identifier that
    was returned. *)
Theorem list_clients_after_create c db :
  fst (list_clients db) = Return (List.map str_id (coll db "client"))
  /\ fst (list_clients (exec (create_client c) db))
       = Return (List.map str_id (coll db "client")
                   ++ [<["_id" := VStr (str (fresh_oid db))]> (model_dump c)])%list
  /\ fst (create_client c db) = Return {["id" := VStr (str (fresh_oid db))]}.
Proof.
  destruct (create_client_run c db) as (Hid & Hclient & _).
  rewrite !list_clients_run. cbn [fst]. unfold exec. rewrite Hclient, map_app.
  split; [reflexivity|]. split; [reflexivity | exact Hid].
Qed.

(** ** Validation: required, optional and range-checked fields *)

Lemma required_missing {A} k (v : JSON -> option A) (p : Payload) :
  p !! k = None -> required k v p = Invalid [k].
Proof. intros Hk. unfold required. rewrite Hk. reflexivity. Qed.

Lemma optional_null_absent {A} k (v : JSON -> option A) (p : Payload) :
  optional k v (<[k := JNull]> p) = optional k v (delete k p).
Proof. unfold optional. rewrite lookup_insert_eq, lookup_delete_eq. reflexivity. Qed.

Lemma required_errors {A} k (v : JSON -> option A) (p : Payload) :
  errors_of (required k v p) `sublist_of` [k].
Proof.
  unfold required. destruct (p !! k) as [j|]; [destruct (v j)|]; simpl;
    repeat constructor.
Qed.

Lemma optional_errors {A} k (v : JSON -> option A) (p : Payload) :
  errors_of (optional k v p) `sublist_of` [k].
Proof.
  unfold optional. destruct (p !! k) as [j|]; [destruct j; try destruct (v _)|]; simpl;
    repeat constructor.
Qed.

Lemma ap_valid {A B} (f : Validated (A -> B)) (x : Validated A) b :
  f <*> x = Valid b -> exists g a, f = Valid g /\ x = Valid a /\ b = g a.
Proof.
  destruct f as [g|], x as [a|]; simpl; intros Hb; try discriminate.
  injection Hb as <-. exists g, a. repeat split.
Qed.

Lemma optional_ge_int_valid k lo v (p : Payload) o :
  optional k (ge_int lo v) p = Valid o -> at_least lo o.
Proof.
  unfold optional, ge_int. intros Hv z ->.
  destruct (p !! k) as [j|]; [|discriminate].
  destruct j; try discriminate;
    match type of Hv with
    | context [v ?j] => destruct (v j) as [z'|]; [|discriminate]
    end;
    (destruct (lo <=? z') eqn:Hle; [|discriminate]);
    injection Hv as <-; apply Z.leb_le, Hle.
Qed.

Lemma optional_ge_le_float_valid k lo hi v (p : Payload) o :
  optional k (ge_le_float lo hi v) p = Valid o -> within lo hi o.
Proof.
  unfold optional, ge_le_float. intros Hv q ->.
  destruct (p !! k) as [j|]; [|discriminate].
  destruct j; try discriminate;
    match type of Hv with
    | context [v ?j] => destruct (v j) as [q'|]; [|discriminate]
    end;
    (destruct (Qle_bool lo q') eqn:Hlo; [|discriminate]);
    (destruct (Qle_bool q' hi) eqn:Hhi; [|discriminate]);
    injection Hv as <-; split; apply Qle_bool_iff; assumption.
Qed.

Ltac missing_field Hk :=
  split;
  [ rewrite !is_valid_ap, (required_missing _ _ _ Hk); simpl;
    rewrite ?andb_false_r; reflexivity
  | rewrite !errors_of_ap, (required_missing _ _ _ Hk); simpl;
    rewrite !in_app_iff; simpl; tauto ].

Ltac null_field k p :=
  rewrite (optional_null_absent k);
  repeat first
    [ rewrite (required_agree _ _ (<[k := JNull]> p) (delete k p))
        by (rewrite lookup_insert_ne, lookup_delete_ne by discriminate; reflexivity)
    | rewrite (optional_agree _ _ (<[k := JNull]> p) (delete k p))
        by (rewrite lookup_insert_ne, lookup_delete_ne by discriminate; reflexivity) ];
  reflexivity.

Ltac errors_declared :=
  rewrite !errors_of_ap; cbn [errors_of];
  repeat first [ apply required_errors | apply optional_errors
               | apply sublist_app | apply sublist_nil ].

Section FieldRules.
Context `{Coercions}.

(** X14: a body without a required field is rejected, with that field
    among the errors: [name] for a client, [client_id] and [url] for a
    website, [client_id] for an SEO snapshot and for a business profile. *)
Theorem required_fields_enforced (p : Payload) :
  (p !! "name" = None -> rejects_field (Client_validate p) "name")
  /\ (p !! "client_id" = None ->
        rejects_field (Website_validate p) "client_id"
        /\ rejects_field (SeoMetric_validate p) "client_id"
        /\ rejects_field (GmbProfile_validate p) "client_id")
  /\ (p !! "url" = None -> rejects_field (Website_validate p) "url").
Proof.
  split; [|split].
  - intros Hk. unfold rejects_field, Client_validate. missing_field Hk.
  - intros Hk. split; [|split].
    + unfold rejects_field, Website_validate. missing_field Hk.
    + unfold rejects_field, SeoMetric_validate. missing_field Hk.
    + unfold rejects_field, GmbProfile_validate. missing_field Hk.
  - intros Hk. unfold rejects_field, Website_validate. missing_field Hk.
Qed.

(** X15: for a field declared [Optional], sending null is the same as
    leaving the field out, in each of the four schemas. *)
Theorem null_is_absent (p : Payload) k :
  (In k Client_optional ->
     Client_validate (<[k := JNull]> p) = Client_validate (delete k p))
  /\ (In k Website_optional ->
        Website_validate (<[k := JNull]> p) = Website_validate (delete k p))
  /\ (In k SeoMetric_optional ->
        SeoMetric_validate (<[k := JNull]> p) = SeoMetric_validate (delete k p))
  /\ (In k GmbProfile_optional ->
        GmbProfile_validate (<[k := JNull]> p) = GmbProfile_validate (delete k p)).
Proof.
  split; [|split; [|split]]; intros Hk; simpl in Hk;
    repeat (destruct Hk as [<-|Hk]); try destruct Hk.
  all: unfold Client_validate, Website_validate, SeoMetric_validate, GmbProfile_validate.
  all: match goal with
       | |- context [<[?k := JNull]> ?body] => null_field k body
       end.
Qed.

(** X16: the errors of a validation name declared fields only, each at
    most once and in the order of declaration. *)
Theorem errors_name_declared_fields (p : Payload) :
  errors_of (Client_validate p) `sublist_of` Client_fields
  /\ errors_of (Website_validate p) `sublist_of` Website_fields
  /\ errors_of (SeoMetric_validate p) `sublist_of` SeoMetric_fields
  /\ errors_of (GmbProfile_validate p) `sublist_of` GmbProfile_fields.
Proof.
  split; [|split; [|split]].
  - unfold Client_validate.
    change Client_fields
      with (((((([] ++ ["name"]) ++ ["contact_name"]) ++ ["email"]) ++ ["phone"])
               ++ ["industry"]) ++ ["notes"])%list.
    errors_declared.
  - unfold Website_validate.
    change Website_fields
      with ((((([] ++ ["client_id"]) ++ ["url"]) ++ ["cms"]) ++ ["status"])
              ++ ["notes"])%list.
    errors_declared.
  - unfold SeoMetric_validate.
    change SeoMetric_fields
      with ((((((([] ++ ["client_id"]) ++ ["date"]) ++ ["organic_traffic"])
                 ++ ["keywords_top3"]) ++ ["keywords_top10"]) ++ ["domain_rating"])
              ++ ["notes"])%list.
    errors_declared.
  - unfold GmbProfile_validate.
    change GmbProfile_fields
      with ((((((([] ++ ["client_id"]) ++ ["listing_name"]) ++ ["url"])
                 ++ ["avg_rating"]) ++ ["reviews_count"]) ++ ["primary_category"])
              ++ ["notes"])%list.
    errors_declared.
Qed.

(** X17: a validated SEO snapshot has [organic_traffic], [keywords_top3]
    and [keywords_top10] absent or at least 0 and [domain_rating] absent
    or from 0 to 100; a validated business profile has [avg_rating]
    absent or from 0 to 5 and [reviews_count] absent or at least 0. *)
Theorem validated_models_in_range (p : Payload) :
  (forall m, SeoMetric_validate p = Valid m ->
     at_least 0 (SeoMetric.organic_traffic m)
     /\ at_least 0 (SeoMetric.keywords_top3 m)
     /\ at_least 0 (SeoMetric.keywords_top10 m)
     /\ within 0 100 (SeoMetric.domain_rating m))
  /\ (forall g, GmbProfile_validate p = Valid g ->
        within 0 5 (GmbProfile.avg_rating g)
        /\ at_least 0 (GmbProfile.reviews_count g)).
Proof.
  split.
  - intros m Hm. unfold SeoMetric_validate in Hm.
    apply ap_valid in Hm as (f7 & notes & Hm & _ & ->).
    apply ap_valid in Hm as (f6 & rating & Hm & Hrating & ->).
    apply ap_valid in Hm as (f5 & top10 & Hm & Htop10 & ->).
    apply ap_valid in Hm as (f4 & top3 & Hm & Htop3 & ->).
    apply ap_valid in Hm as (f3 & traffic & Hm & Htraffic & ->).
    apply ap_valid in Hm as (f2 & date & Hm & _ & ->).
    apply ap_valid in Hm as (f1 & cid & Hm & _ & ->).
    injection Hm as <-. cbn.
    split; [apply (optional_ge_int_valid _ _ _ _ _ Htraffic)|].
    split; [apply (optional_ge_int_valid _ _ _ _ _ Htop3)|].
    split; [apply (optional_ge_int_valid _ _ _ _ _ Htop10)|].
    apply (optional_ge_le_float_valid _ _ _ _ _ _ Hrating).
  - intros g Hg. unfold GmbProfile_validate in Hg.
    apply ap_valid in Hg as (f7 & notes & Hg & _ & ->).
    apply ap_valid in Hg as (f6 & category & Hg & _ & ->).
    apply ap_valid in Hg as (f5 & reviews & Hg & Hreviews & ->).
    apply ap_valid in Hg as (f4 & rating & Hg & Hrating & ->).
    apply ap_valid in Hg as (f3 & url & Hg & _ & ->).
    apply ap_valid in Hg as (f2 & listing & Hg & _ & ->).
    apply ap_valid in Hg as (f1 & cid & Hg & _ & ->).
    injection Hg as <-. cbn.
    split; [apply (optional_ge_le_float_valid _ _ _ _ _ _ Hrating)|].
    apply (optional_ge_int_valid _ _ _ _ _ Hreviews).
Qed.

End FieldRules.

Lemma required_fields_enforced_witness :
  (∅ : Payload) !! "name" = None
  /\ rejects_field (@Client_validate exact ∅) "name"
  /\ rejects_field (@Website_validate exact ∅) "client_id"
  /\ rejects_field (@Website_validate exact ∅) "url"
  /\ client_body !! "client_id" = None
  /\ rejects_field (@SeoMetric_validate exact client_body) "client_id".
Proof.
  destruct (@required_fields_enforced exact ∅) as (Hname & Hcid & Hurl).
  destruct (@required_fields_enforced exact client_body) as (_ & Hcid' & _).
  split; [reflexivity|]. split; [apply Hname; reflexivity|].
  split; [apply Hcid; reflexivity|]. split; [apply Hurl; reflexivity|].
  split; [reflexivity|]. apply Hcid'. reflexivity.
Defined.

Lemma null_is_absent_witness :
  In "notes" Client_optional
  /\ @Client_validate exact (<["notes" := JNull]> client_body)
     = @Client_validate exact (delete "notes" client_body)
  /\ In "domain_rating" SeoMetric_optional
  /\ @SeoMetric_validate exact (<["domain_rating" := JNull]> (seo_body 0 100))
     = @SeoMetric_validate exact (delete "domain_rating" (seo_body 0 100)).
Proof.
  assert (Hnotes : In "notes" Client_optional) by (simpl; tauto).
  assert (Hrating : In "domain_rating" SeoMetric_optional) by (simpl; tauto).
  split; [exact Hnotes|].
  split; [exact (proj1 (@null_is_absent exact client_body "notes") Hnotes)|].
  split; [exact Hrating|].
  exact (proj1 (proj2 (proj2 (@null_is_absent exact (seo_body 0 100) "domain_rating")))
           Hrating).
Defined.

Lemma validated_models_in_range_witness :
  exists m,
    @SeoMetric_validate exact (seo_body 0 100) = Valid m
    /\ SeoMetric.organic_traffic m = Some 0
    /\ SeoMetric.domain_rating m = Some 100%Q
    /\ at_least 0 (SeoMetric.organic_traffic m)
    /\ at_least 0 (SeoMetric.keywords_top3 m)
    /\ at_least 0 (SeoMetric.keywords_top10 m)
    /\ within 0 100 (SeoMetric.domain_rating m).
Proof.
  assert (Hfields :
            match @SeoMetric_validate exact (seo_body 0 100) with
            | Valid m => SeoMetric.organic_traffic m = Some 0
                         /\ SeoMetric.domain_rating m = Some 100%Q
            | Invalid _ => False
            end) by (vm_compute; split; reflexivity).
  destruct (@SeoMetric_validate exact (seo_body 0 100)) as [m|] eqn:Hm; [|destruct Hfields].
  destruct Hfields as [Htraffic Hrating].
  exists m. split; [reflexivity|]. split; [exact Htraffic|]. split; [exact Hrating|].
  exact (proj1 (@validated_models_in_range exact (seo_body 0 100)) m Hm).
Defined.

(** * Bodies, models and what is read back *)

Lemma required_valid {A} k (v : JSON -> option A) (p : Payload) a :
  required k v p = Valid a -> coerced v k p a.
Proof.
  unfold required, coerced. destruct (p !! k) as [j|]; [|discriminate].
  destruct (v j) as [a'|] eqn:Hv; [|discriminate].
  intros [= <-]. exists j. split; [reflexivity | exact Hv].
Qed.

Lemma optional_valid {A} k (v : JSON -> option A) (p : Payload) o :
  optional k v p = Valid o -> coerced_or_absent v k p o.
Proof.
  unfold optional, coerced_or_absent. destruct (p !! k) as [j|].
  - destruct j; try (intros [= <-]; right; reflexivity);
      match goal with
      | |- context [v ?j] => destruct (v j) as [a|] eqn:Hv; [|discriminate]
      end;
      intros [= <-]; eexists; (split; [reflexivity|]); (split; [discriminate | exact Hv]).
  - intros [= <-]. left. reflexivity.
Qed.

Lemma coerced_or_absent_impl {A} (v v' : JSON -> option A) k (p : Payload) o :
  (forall j a, v j = Some a -> v' j = Some a) ->
  coerced_or_absent v k p o -> coerced_or_absent v' k p o.
Proof.
  intros Hv. destruct o as [a|]; simpl; [|tauto].
  intros (j & Hk & Hj & Ha). exists j. split; [exact Hk|]. split; [exact Hj|].
  apply Hv, Ha.
Qed.

Lemma ge_int_coerces lo v j z : ge_int lo v j = Some z -> v j = Some z.
Proof.
  unfold ge_int. destruct (v j) as [z'|]; [|discriminate].
  destruct (lo <=? z'); [congruence | discriminate].
Qed.

Lemma ge_le_float_coerces lo hi v j q : ge_le_float lo hi v j = Some q -> v j = Some q.
Proof.
  unfold ge_le_float. destruct (v j) as [q'|]; [|discriminate].
  destruct (Qle_bool lo q' && Qle_bool q' hi); [congruence | discriminate].
Qed.

Lemma is_valid_required {A} k (v : JSON -> option A) (p : Payload) :
  is_valid (required k v p) = given v k p.
Proof.
  unfold required, given. destruct (p !! k) as [j|]; [|reflexivity].
  destruct (v j); reflexivity.
Qed.

Lemma is_valid_optional {A} k (v : JSON -> option A) (p : Payload) :
  is_valid (optional k v p) = given_or_absent v k p.
Proof.
  unfold optional, given_or_absent. destruct (p !! k) as [j|]; [|reflexivity].
  destruct j; try reflexivity;
    match goal with |- context [v ?j] => destruct (v j); reflexivity end.
Qed.

Lemma Client_dump_record c : model_dump c = list_to_map (Client_record c).
Proof. destruct c as [n [?|] [?|] [?|] [?|] [?|]]; reflexivity. Qed.

Lemma Website_dump_record w : model_dump w = list_to_map (Website_record w).
Proof. destruct w as [? ? [?|] [?|] [?|]]; reflexivity. Qed.

Lemma SeoMetric_dump_record m : model_dump m = list_to_map (SeoMetric_record m).
Proof. destruct m as [? [?|] [?|] [?|] [?|] [?|] [?|]]; reflexivity. Qed.

Lemma GmbProfile_dump_record g : model_dump g = list_to_map (GmbProfile_record g).
Proof. destruct g as [? [?|] [?|] [?|] [?|] [?|] [?|]]; reflexivity. Qed.

Section ReadBack.
Context `{Coercions}.

Lemma Client_validate_reads p c : Client_validate p = Valid c -> Client_reads p c.
Proof.
  intros Hc. unfold Client_validate in Hc.
  apply ap_valid in Hc as (f6 & notes & Hc & Hnotes & ->).
  apply ap_valid in Hc as (f5 & industry & Hc & Hindustry & ->).
  apply ap_valid in Hc as (f4 & phone & Hc & Hphone & ->).
  apply ap_valid in Hc as (f3 & email & Hc & Hemail & ->).
  apply ap_valid in Hc as (f2 & contact & Hc & Hcontact & ->).
  apply ap_valid in Hc as (f1 & name & Hc & Hname & ->).
  injection Hc as <-. unfold Client_reads. cbn.
  repeat apply conj;
    first [ apply required_valid; assumption | apply optional_valid; assumption ].
Qed.

Lemma Website_validate_reads p w : Website_validate p = Valid w -> Website_reads p w.
Proof.
  intros Hw. unfold Website_validate in Hw.
  apply ap_valid in Hw as (f5 & notes & Hw & Hnotes & ->).
  apply ap_valid in Hw as (f4 & status & Hw & Hstatus & ->).
  apply ap_valid in Hw as (f3 & cms & Hw & Hcms & ->).
  apply ap_valid in Hw as (f2 & url & Hw & Hurl & ->).
  apply ap_valid in Hw as (f1 & cid & Hw & Hcid & ->).
  injection Hw as <-. unfold Website_reads. cbn.
  repeat apply conj;
    first [ apply required_valid; assumption | apply optional_valid; assumption ].
Qed.

Lemma SeoMetric_validate_reads p m : SeoMetric_validate p = Valid m -> SeoMetric_reads p m.
Proof.
  intros Hm. unfold SeoMetric_validate in Hm.
  apply ap_valid in Hm as (f7 & notes & Hm & Hnotes & ->).
  apply ap_valid in Hm as (f6 & rating & Hm & Hrating & ->).
  apply ap_valid in Hm as (f5 & top10 & Hm & Htop10 & ->).
  apply ap_valid in Hm as (f4 & top3 & Hm & Htop3 & ->).
  apply ap_valid in Hm as (f3 & traffic & Hm & Htraffic & ->).
  apply ap_valid in Hm as (f2 & date & Hm & Hdate & ->).
  apply ap_valid in Hm as (f1 & cid & Hm & Hcid & ->).
  injection Hm as <-. unfold SeoMetric_reads. cbn.
  repeat apply conj;
    first [ apply required_valid; assumption
          | apply optional_valid; assumption
          | eapply coerced_or_absent_impl;
            [apply ge_int_coerces | apply optional_valid; eassumption]
          | eapply coerced_or_absent_impl;
            [apply ge_le_float_coerces | apply optional_valid; eassumption] ].
Qed.

Lemma GmbProfile_validate_reads p g :
  GmbProfile_validate p = Valid g -> GmbProfile_reads p g.
Proof.
  intros Hg. unfold GmbProfile_validate in Hg.
  apply ap_valid in Hg as (f7 & notes & Hg & Hnotes & ->).
  apply ap_valid in Hg as (f6 & category & Hg & Hcategory & ->).
  apply ap_valid in Hg as (f5 & reviews & Hg & Hreviews & ->).
  apply ap_valid in Hg as (f4 & rating & Hg & Hrating & ->).
  apply ap_valid in Hg as (f3 & url & Hg & Hurl & ->).
  apply ap_valid in Hg as (f2 & listing & Hg & Hlisting & ->).
  apply ap_valid in Hg as (f1 & cid & Hg & Hcid & ->).
  injection Hg as <-. unfold GmbProfile_reads. cbn.
  repeat apply conj;
    first [ apply required_valid; assumption
          | apply optional_valid; assumption
          | eapply coerced_or_absent_impl;
            [apply ge_int_coerces | apply optional_valid; eassumption]
          | eapply coerced_or_absent_impl;
            [apply ge_le_float_coerces | apply optional_valid; eassumption] ].
Qed.

(** C7 as amended: a body accepted at creation is read back as it was
    validated.  The model holds, field by field, what the body's fields
    were coerced to; the record read back ([list_clients] for a client,
    [get_client_detail] on the record's own [client_id] for a website,
    SEO snapshot or business profile) has exactly the model's fields,
    each with the model's value and an absent optional field as null,
    and the identifier that was returned, a non-empty string.  What
    [create_document] stores and [get_documents] returns is taken from
    section 4.2 of the specification. *)
Theorem validated_records_read_back db :
  (forall p c,
      Client_validate p = Valid c ->
      Client_reads p c
      /\ exists id db',
          post_clients p db = (Return {["id" := VStr id]}, db')
          /\ id <> ""
          /\ exists items db'',
              list_clients db' = (Return items, db'')
              /\ returned_as id (list_to_map (Client_record c)) items)
  /\ (forall p w out db',
        Website_validate p = Valid w ->
        post_websites p db = (Return out, db') ->
        Website_reads p w
        /\ exists id,
            out = {["id" := VStr id]} /\ id <> ""
            /\ exists r db'',
                get_client_detail (Website.client_id w) db' = (Return r, db'')
                /\ returned_as id (list_to_map (Website_record w)) (websites r))
  /\ (forall p m out db',
        SeoMetric_validate p = Valid m ->
        post_seo p db = (Return out, db') ->
        SeoMetric_reads p m
        /\ exists id,
            out = {["id" := VStr id]} /\ id <> ""
            /\ exists r db'',
                get_client_detail (SeoMetric.client_id m) db' = (Return r, db'')
                /\ returned_as id (list_to_map (SeoMetric_record m)) (seo r))
  /\ (forall p g out db',
        GmbProfile_validate p = Valid g ->
        post_gmb p db = (Return out, db') ->
        GmbProfile_reads p g
        /\ exists id,
            out = {["id" := VStr id]} /\ id <> ""
            /\ exists r db'',
                get_client_detail (GmbProfile.client_id g) db' = (Return r, db'')
                /\ returned_as id (list_to_map (GmbProfile_record g)) (gmb r)).
Proof.
  split; [|split; [|split]].
  - intros p c Hc. split; [apply Client_validate_reads, Hc|].
    unfold post_clients, post. rewrite Hc.
    destruct (create_client_round_trip db c) as (db' & Hrun & Hread).
    exists (str (fresh_oid db)), db'.
    split; [exact Hrun|]. split; [apply str_fresh_oid_nonempty|].
    rewrite <- Client_dump_record. exact Hread.
  - intros p w out db' Hw Hrun. split; [apply Website_validate_reads, Hw|].
    unfold post_websites, post in Hrun. rewrite Hw in Hrun.
    destruct (create_website_round_trip db w out db' Hrun) as [Hout Hread].
    exists (str (fresh_oid db)).
    split; [exact Hout|]. split; [apply str_fresh_oid_nonempty|].
    rewrite <- Website_dump_record. exact Hread.
  - intros p m out db' Hm Hrun. split; [apply SeoMetric_validate_reads, Hm|].
    unfold post_seo, post in Hrun. rewrite Hm in Hrun.
    destruct (create_seo_metric_round_trip db m out db' Hrun) as [Hout Hread].
    exists (str (fresh_oid db)).
    split; [exact Hout|]. split; [apply str_fresh_oid_nonempty|].
    rewrite <- SeoMetric_dump_record. exact Hread.
  - intros p g out db' Hg Hrun. split; [apply GmbProfile_validate_reads, Hg|].
    unfold post_gmb, post in Hrun. rewrite Hg in Hrun.
    destruct (create_gmb_profile_round_trip db g out db' Hrun) as [Hout Hread].
    exists (str (fresh_oid db)).
    split; [exact Hout|]. split; [apply str_fresh_oid_nonempty|].
    rewrite <- GmbProfile_dump_record. exact Hread.
Qed.

End ReadBack.

(** C7, refuted as stated: a client sent with the e-mail address
    [Wile@ACME.example] is accepted, and the one record [list_clients]
    then returns has the address [Wile@acme.example]: the field read back
    is not the field that was sent. *)
Lemma email_read_back_counterexample :
  mixed_case_email_body !! "email" = Some (JStr "Wile@ACME.example")
  /\ is_valid (@Client_validate normalising mixed_case_email_body) = true
  /\ List.map (fun r : Dict => r !! "email")
       <$> body (fst (list_clients
                        (exec (@post_clients normalising mixed_case_email_body) empty_db)))
     = Some [Some (VStr "Wile@acme.example")].
Proof. repeat apply conj; vm_compute; reflexivity. Qed.

Lemma validated_records_read_back_witness :
  let out := {["id" := VStr "00000000000000000000000b"]} in
  @Client_validate exact client_body = Valid acme
  /\ @Website_validate exact website_body = Valid (site acme_id "https://acme.example/")
  /\ @post_websites exact website_body client_only_db
       = (Return out, exec (@post_websites exact website_body) client_only_db)
  /\ @SeoMetric_validate exact (seo_body 0 100) = Valid seo_model
  /\ @post_seo exact (seo_body 0 100) client_only_db
       = (Return out, exec (@post_seo exact (seo_body 0 100)) client_only_db)
  /\ @GmbProfile_validate exact (gmb_body 5 0) = Valid gmb_model
  /\ @post_gmb exact (gmb_body 5 0) client_only_db
       = (Return out, exec (@post_gmb exact (gmb_body 5 0)) client_only_db)
  /\ (@Client_reads exact client_body acme
      /\ exists id db',
          @post_clients exact client_body client_only_db
            = (Return {["id" := VStr id]}, db')
          /\ id <> ""
          /\ exists items db'',
              list_clients db' = (Return items, db'')
              /\ returned_as id (list_to_map (Client_record acme)) items)
  /\ (@Website_reads exact website_body (site acme_id "https://acme.example/")
      /\ exists id,
          out = {["id" := VStr id]} /\ id <> ""
          /\ exists r db'',
              get_client_detail acme_id (exec (@post_websites exact website_body) client_only_db)
                = (Return r, db'')
              /\ returned_as id
                   (list_to_map (Website_record (site acme_id "https://acme.example/")))
                   (websites r))
  /\ (@SeoMetric_reads exact (seo_body 0 100) seo_model
      /\ exists id,
          out = {["id" := VStr id]} /\ id <> ""
          /\ exists r db'',
              get_client_detail acme_id
                (exec (@post_seo exact (seo_body 0 100)) client_only_db) = (Return r, db'')
              /\ returned_as id (list_to_map (SeoMetric_record seo_model)) (seo r))
  /\ (@GmbProfile_reads exact (gmb_body 5 0) gmb_model
      /\ exists id,
          out = {["id" := VStr id]} /\ id <> ""
          /\ exists r db'',
              get_client_detail acme_id
                (exec (@post_gmb exact (gmb_body 5 0)) client_only_db) = (Return r, db'')
              /\ returned_as id (list_to_map (GmbProfile_record gmb_model)) (gmb r)).
Proof.
  intros out.
  assert (Hc : @Client_validate exact client_body = Valid acme) by (vm_compute; reflexivity).
  assert (Hw : @Website_validate exact website_body
               = Valid (site acme_id "https://acme.example/")) by (vm_compute; reflexivity).
  assert (Hwrun : @post_websites exact website_body client_only_db
                  = (Return out, exec (@post_websites exact website_body) client_only_db))
    by (vm_compute; reflexivity).
  assert (Hm : @SeoMetric_validate exact (seo_body 0 100) = Valid seo_model)
    by (vm_compute; reflexivity).
  assert (Hmrun : @post_seo exact (seo_body 0 100) client_only_db
                  = (Return out, exec (@post_seo exact (seo_body 0 100)) client_only_db))
    by (vm_compute; reflexivity).
  assert (Hg : @GmbProfile_validate exact (gmb_body 5 0) = Valid gmb_model)
    by (vm_compute; reflexivity).
  assert (Hgrun : @post_gmb exact (gmb_body 5 0) client_only_db
                  = (Return out, exec (@post_gmb exact (gmb_body 5 0)) client_only_db))
    by (vm_compute; reflexivity).
  destruct (@validated_records_read_back exact client_only_db) as (Hcs & Hws & Hms & Hgs).
  refine (conj Hc (conj Hw (conj Hwrun (conj Hm (conj Hmrun (conj Hg (conj Hgrun
            (conj _ (conj _ (conj _ _)))))))))).
  - exact (Hcs client_body acme Hc).
  - exact (Hws website_body _ _ _ Hw Hwrun).
  - exact (Hms (seo_body 0 100) _ _ _ Hm Hmrun).
  - exact (Hgs (gmb_body 5 0) _ _ _ Hg Hgrun).
Defined.

(** * Fields outside the schema *)

Section UndeclaredFields.
Context `{Coercions}.

Lemma Client_accepts_declared p :
  is_valid (Client_validate p) = Client_declared_valid p.
Proof.
  unfold Client_validate, Client_declared_valid.
  rewrite !is_valid_ap, !is_valid_required, !is_valid_optional. reflexivity.
Qed.

Lemma Website_accepts_declared p :
  is_valid (Website_validate p) = Website_declared_valid p.
Proof.
  unfold Website_validate, Website_declared_valid.
  rewrite !is_valid_ap, !is_valid_required, !is_valid_optional. reflexivity.
Qed.

Lemma SeoMetric_accepts_declared p :
  is_valid (SeoMetric_validate p) = SeoMetric_declared_valid p.
Proof.
  unfold SeoMetric_validate, SeoMetric_declared_valid.
  rewrite !is_valid_ap, !is_valid_required, !is_valid_optional. reflexivity.
Qed.

Lemma GmbProfile_accepts_declared p :
  is_valid (GmbProfile_validate p) = GmbProfile_declared_valid p.
Proof.
  unfold GmbProfile_validate, GmbProfile_declared_valid.
  rewrite !is_valid_ap, !is_valid_required, !is_valid_optional. reflexivity.
Qed.

Lemma post_dependent_appended {A} `{BaseModel A}
    (validate : Payload -> Validated A) (handler : A -> Handler Dict)
    name (client_id : A -> string) p a cid db :
  (forall a db, handler a db = insert_for_client name (client_id a) (model_dump a) db) ->
  name <> "client" ->
  validate p = Valid a ->
  ObjectId_of_str (client_id a) = Some cid ->
  (exists c, In c (coll db "client") /\ _id c = cid) ->
  appended db name (model_dump a) (post validate handler p db).
Proof.
  intros Hrun Hname Ha Hcid Hex. unfold post. rewrite Ha, Hrun.
  apply (insert_for_client_appended name _ _ db cid Hname Hcid Hex).
Qed.

(** C10: a field the schema does not declare plays no part in a creation
    request, for each of the four kinds.  A body is accepted exactly when
    its declared fields are valid; two bodies that agree on the declared
    fields, such as a body and the same body with further fields, get the
    same answer and leave the same database; and when the request
    succeeds (for a dependent: the client exists) the one document
    appended is the model's dump, whose keys are exactly the declared
    fields. *)
Theorem undeclared_fields_neither_rejected_nor_stored db :
  (forall p,
      is_valid (Client_validate p) = Client_declared_valid p
      /\ is_valid (Website_validate p) = Website_declared_valid p
      /\ is_valid (SeoMetric_validate p) = SeoMetric_declared_valid p
      /\ is_valid (GmbProfile_validate p) = GmbProfile_declared_valid p)
  /\ (forall p p', agree_on Client_fields p p' -> post_clients p db = post_clients p' db)
  /\ (forall p p', agree_on Website_fields p p' -> post_websites p db = post_websites p' db)
  /\ (forall p p', agree_on SeoMetric_fields p p' -> post_seo p db = post_seo p' db)
  /\ (forall p p', agree_on GmbProfile_fields p p' -> post_gmb p db = post_gmb p' db)
  /\ (forall p c,
        Client_validate p = Valid c ->
        appended db "client" (model_dump c) (post_clients p db)
        /\ dom (model_dump c) = list_to_set Client_fields)
  /\ (forall p w cid,
        Website_validate p = Valid w ->
        ObjectId_of_str (Website.client_id w) = Some cid ->
        (exists c, In c (coll db "client") /\ _id c = cid) ->
        appended db "website" (model_dump w) (post_websites p db)
        /\ dom (model_dump w) = list_to_set Website_fields)
  /\ (forall p m cid,
        SeoMetric_validate p = Valid m ->
        ObjectId_of_str (SeoMetric.client_id m) = Some cid ->
        (exists c, In c (coll db "client") /\ _id c = cid) ->
        appended db "seometric" (model_dump m) (post_seo p db)
        /\ dom (model_dump m) = list_to_set SeoMetric_fields)
  /\ (forall p g cid,
        GmbProfile_validate p = Valid g ->
        ObjectId_of_str (GmbProfile.client_id g) = Some cid ->
        (exists c, In c (coll db "client") /\ _id c = cid) ->
        appended db "gmbprofile" (model_dump g) (post_gmb p db)
        /\ dom (model_dump g) = list_to_set GmbProfile_fields).
Proof.
  split.
  { intros p. repeat apply conj;
      [ apply Client_accepts_declared | apply Website_accepts_declared
      | apply SeoMetric_accepts_declared | apply GmbProfile_accepts_declared ]. }
  repeat apply conj.
  - intros p p' Hagree. unfold post_clients, post.
    rewrite (Client_validate_agree p p' Hagree). reflexivity.
  - intros p p' Hagree. unfold post_websites, post.
    rewrite (Website_validate_agree p p' Hagree). reflexivity.
  - intros p p' Hagree. unfold post_seo, post.
    rewrite (SeoMetric_validate_agree p p' Hagree). reflexivity.
  - intros p p' Hagree. unfold post_gmb, post.
    rewrite (GmbProfile_validate_agree p p' Hagree). reflexivity.
  - intros p c Hc. split.
    + unfold post_clients, post. rewrite Hc. apply create_client_run.
    + unfold model_dump, Client_model. rewrite dom_list_to_map_L. reflexivity.
  - intros p w cid Hw Hcid Hex. split.
    + apply (post_dependent_appended Website_validate create_website "website"
               Website.client_id p w cid db);
        [apply create_website_run | discriminate | assumption..].
    + unfold model_dump, Website_model. rewrite dom_list_to_map_L. reflexivity.
  - intros p m cid Hm Hcid Hex. split.
    + apply (post_dependent_appended SeoMetric_validate create_seo_metric "seometric"
               SeoMetric.client_id p m cid db);
        [apply create_seo_metric_run | discriminate | assumption..].
    + unfold model_dump, SeoMetric_model. rewrite dom_list_to_map_L. reflexivity.
  - intros p g cid Hg Hcid Hex. split.
    + apply (post_dependent_appended GmbProfile_validate create_gmb_profile "gmbprofile"
               GmbProfile.client_id p g cid db);
        [apply create_gmb_profile_run | discriminate | assumption..].
    + unfold model_dump, GmbProfile_model. rewrite dom_list_to_map_L. reflexivity.
Qed.

End UndeclaredFields.

Lemma undeclared_fields_neither_rejected_nor_stored_witness :
  let db := client_only_db in
  let cid := fresh_oid empty_db in
  agree_on Client_fields client_body_extra client_body
  /\ agree_on Website_fields website_body_extra website_body
  /\ agree_on SeoMetric_fields seo_body_extra (seo_body 0 100)
  /\ agree_on GmbProfile_fields gmb_body_extra (gmb_body 5 0)
  /\ @post_clients exact client_body_extra db = @post_clients exact client_body db
  /\ @post_websites exact website_body_extra db = @post_websites exact website_body db
  /\ @post_seo exact seo_body_extra db = @post_seo exact (seo_body 0 100) db
  /\ @post_gmb exact gmb_body_extra db = @post_gmb exact (gmb_body 5 0) db
  /\ @Client_validate exact client_body_extra = Valid acme
  /\ @Website_validate exact website_body_extra
       = Valid (site acme_id "https://acme.example/")
  /\ @SeoMetric_validate exact seo_body_extra = Valid seo_model
  /\ @GmbProfile_validate exact gmb_body_extra = Valid gmb_model
  /\ ObjectId_of_str acme_id = Some cid
  /\ (exists c, In c (coll db "client") /\ _id c = cid)
  /\ (appended db "client" (model_dump acme) (@post_clients exact client_body_extra db)
      /\ dom (model_dump acme) = list_to_set Client_fields)
  /\ (appended db "website" (model_dump (site acme_id "https://acme.example/"))
        (@post_websites exact website_body_extra db)
      /\ dom (model_dump (site acme_id "https://acme.example/"))
           = list_to_set Website_fields)
  /\ (appended db "seometric" (model_dump seo_model) (@post_seo exact seo_body_extra db)
      /\ dom (model_dump seo_model) = list_to_set SeoMetric_fields)
  /\ (appended db "gmbprofile" (model_dump gmb_model) (@post_gmb exact gmb_body_extra db)
      /\ dom (model_dump gmb_model) = list_to_set GmbProfile_fields).
Proof.
  intros db cid.
  assert (Hac : agree_on Client_fields client_body_extra client_body).
  { unfold client_body_extra. intros k Hk.
    rewrite !lookup_insert_ne; [reflexivity | |];
      intros <-; vm_compute in Hk; intuition discriminate. }
  assert (Haw : agree_on Website_fields website_body_extra website_body).
  { apply agree_on_insert. vm_compute. intuition discriminate. }
  assert (Ham : agree_on SeoMetric_fields seo_body_extra (seo_body 0 100)).
  { apply agree_on_insert. vm_compute. intuition discriminate. }
  assert (Hag : agree_on GmbProfile_fields gmb_body_extra (gmb_body 5 0)).
  { apply agree_on_insert. vm_compute. intuition discriminate. }
  assert (Hc : @Client_validate exact client_body_extra = Valid acme)
    by (vm_compute; reflexivity).
  assert (Hw : @Website_validate exact website_body_extra
               = Valid (site acme_id "https://acme.example/")) by (vm_compute; reflexivity).
  assert (Hm : @SeoMetric_validate exact seo_body_extra = Valid seo_model)
    by (vm_compute; reflexivity).
  assert (Hg : @GmbProfile_validate exact gmb_body_extra = Valid gmb_model)
    by (vm_compute; reflexivity).
  assert (Hex : exists c, In c (coll db "client") /\ _id c = cid).
  { exists {| _id := cid; fields := model_dump acme |}.
    split; [vm_compute; left; reflexivity | reflexivity]. }
  destruct (@undeclared_fields_neither_rejected_nor_stored exact db)
    as (_ & Hpc & Hpw & Hpm & Hpg & Hsc & Hsw & Hsm & Hsg).
  refine (conj Hac (conj Haw (conj Ham (conj Hag
           (conj (Hpc _ _ Hac) (conj (Hpw _ _ Haw) (conj (Hpm _ _ Ham) (conj (Hpg _ _ Hag)
           (conj Hc (conj Hw (conj Hm (conj Hg (conj eq_refl (conj Hex
           (conj (Hsc _ _ Hc) (conj (Hsw _ _ cid Hw eq_refl Hex)
           (conj (Hsm _ _ cid Hm eq_refl Hex) (Hsg _ _ cid Hg eq_refl Hex)))))))))))))))))).
Defined.

(** * Letter case of an identifier *)

Lemma space_is_ascii c : Hex.isspace c = true -> is_ascii c = true.
Proof. destruct c as [[] [] [] [] [] [] [] []]; vm_compute; congruence. Qed.

Lemma digit_is_ascii c n : Hex.digit_value c = Some n -> is_ascii c = true.
Proof. destruct c as [[] [] [] [] [] [] [] []]; vm_compute; congruence. Qed.

Lemma fromhex_ascii s bs : Hex.fromhex s = Some bs -> forall_chars is_ascii s = true.
Proof.
  revert bs.
  induction s as [| c | c s IHs IHcs d] using string_pair_ind; intros bs.
  - reflexivity.
  - rewrite fromhex_cons. destruct (Hex.isspace c) eqn:Hsp.
    + intros _. cbn. rewrite (space_is_ascii c Hsp). reflexivity.
    + destruct (Hex.digit_value c); discriminate.
  - rewrite fromhex_cons. destruct (Hex.isspace d) eqn:Hsp.
    + intros Hbs. cbn [forall_chars]. rewrite (space_is_ascii d Hsp).
      apply (IHcs bs Hbs).
    + destruct (Hex.digit_value d) as [top|] eqn:Hdv; [|discriminate].
      destruct (Hex.digit_value c) as [bot|] eqn:Hcv; [|discriminate].
      destruct (Hex.fromhex s) as [bs'|] eqn:Hs; [|discriminate].
      intros _. cbn [forall_chars].
      rewrite (digit_is_ascii d top Hdv), (digit_is_ascii c bot Hcv).
      apply (IHs bs' eq_refl).
Qed.

Lemma to_object_id_case s :
  to_object_id (upper s) = to_object_id s /\ to_object_id (lower s) = to_object_id s.
Proof.
  unfold to_object_id, upper, lower.
  rewrite (ObjectId_of_str_map_chars upper_char s digit_value_upper isspace_upper).
  rewrite (ObjectId_of_str_map_chars lower_char s digit_value_lower isspace_lower).
  split; reflexivity.
Qed.

(** X2: on a string of ASCII characters, where [upper] and [lower] are
    what [str.upper] and [str.lower] do, [to_object_id] does not tell the
    letter cases apart: the string, its upper-case form and its
    lower-case form are all refused, or all accepted as the same
    identifier.  A string [to_object_id] accepts is such a string, so its
    upper-case and lower-case forms are accepted as the same identifier. *)
Theorem to_object_id_ignores_case :
  (forall s,
      forall_chars is_ascii s = true ->
      to_object_id (upper s) = to_object_id s
      /\ to_object_id (lower s) = to_object_id s)
  /\ (forall s oid db db',
        to_object_id s db = (Return oid, db') ->
        forall_chars is_ascii s = true
        /\ to_object_id (upper s) db = (Return oid, db')
        /\ to_object_id (lower s) db = (Return oid, db')).
Proof.
  split.
  - intros s _. apply to_object_id_case.
  - intros s oid db db' Hrun.
    destruct (to_object_id_case s) as [Hup Hlow]. rewrite Hup, Hlow.
    split; [|split; exact Hrun].
    unfold to_object_id, ObjectId_of_str in Hrun.
    destruct (String.length s =? 24)%nat; [|discriminate].
    destruct (Hex.fromhex s) as [bs|] eqn:Hbs; [|discriminate].
    apply (fromhex_ascii s bs Hbs).
Qed.

Lemma to_object_id_ignores_case_witness :
  forall_chars is_ascii "not an identifier" = true
  /\ to_object_id (upper "not an identifier") = to_object_id "not an identifier"
  /\ to_object_id acme_id scenario_db = (Return (fresh_oid empty_db), scenario_db)
  /\ upper acme_id = "00000000000000000000000A"
  /\ to_object_id (upper acme_id) scenario_db = (Return (fresh_oid empty_db), scenario_db)
  /\ to_object_id (lower acme_id) scenario_db = (Return (fresh_oid empty_db), scenario_db).
Proof.
  destruct to_object_id_ignores_case as [Hascii Haccepted].
  assert (Hrun : to_object_id acme_id scenario_db
                 = (Return (fresh_oid empty_db), scenario_db)) by reflexivity.
  split; [reflexivity|].
  split; [exact (proj1 (Hascii "not an identifier" eq_refl))|].
  split; [exact Hrun|]. split; [reflexivity|].
  exact (proj2 (Haccepted acme_id _ _ _ Hrun)).
Defined.
